(** * Bakalari sync: extraction, normalisation, filtering and line encoding

    A shallow embedding of the transform code of [utils/bakalari.mjs],
    [marks-sync.mjs] and [homeworks-sync.mjs].

    - JavaScript strings are sequences of UTF-16 code units ([list N]);
      [length], [substring] and [trim] count code units, as in the source.
    - Raw upstream records are JSON values ([value]); property access on
      anything but an object yields [undefined].
    - A [Date] is its time value in milliseconds since the epoch; an invalid
      date (time value NaN) is [None].
    - A thrown exception is [None] in the [option] monad. *)

From Stdlib Require Import List ZArith QArith Qabs String Ascii Bool Lia.
From Stdlib Require Import Permutation Sorting.Sorted Numbers.DecimalString.
From Stdlib Require Import NArith.
Import ListNotations.
Close Scope Q_scope.

Set Implicit Arguments.
Set Warnings "-register-all".

(** ** Strings *)

Definition jsstring := list N.

(** String literals of the source are written as UTF-8 text and decoded to
    code units (all of them lie in the Basic Multilingual Plane). *)
Fixpoint utf16 (octets : list N) : jsstring :=
  match octets with
  | [] => []
  | b :: rest =>
      if (b <? 128)%N then b :: utf16 rest
      else if (b <? 224)%N then
        match rest with
        | b2 :: rest' => ((b - 192) * 64 + (b2 - 128))%N :: utf16 rest'
        | [] => []
        end
      else
        match rest with
        | b2 :: b3 :: rest' =>
            ((b - 224) * 4096 + (b2 - 128) * 64 + (b3 - 128))%N :: utf16 rest'
        | _ => []
        end
  end.

Definition lit (s : string) : jsstring :=
  utf16 (map N_of_ascii (list_ascii_of_string s)).

(** ECMAScript WhiteSpace and LineTerminator code points: the characters
    removed by [String.prototype.trim] and matched by the regexp class \s. *)
Definition isWhiteSpace (c : N) : bool :=
  ((9 <=? c) && (c <=? 13) || (c =? 32) || (c =? 160) || (c =? 5760)
   || (8192 <=? c) && (c <=? 8202) || (c =? 8232) || (c =? 8233)
   || (c =? 8239) || (c =? 8287) || (c =? 12288) || (c =? 65279))%N.

Fixpoint trimStart (s : jsstring) : jsstring :=
  match s with
  | c :: s' => if isWhiteSpace c then trimStart s' else s
  | [] => []
  end.

Definition trimEnd (s : jsstring) : jsstring := rev (trimStart (rev s)).

Definition trim (s : jsstring) : jsstring := trimEnd (trimStart s).

(** [s.substring(0, n)] *)
Definition substring0 (n : nat) (s : jsstring) : jsstring := firstn n s.

(** [s.replace(/\s+/g, ' ')]: every maximal run of white space becomes one
    space. *)
Fixpoint collapseFrom (inRun : bool) (s : jsstring) : jsstring :=
  match s with
  | [] => []
  | c :: s' =>
      if isWhiteSpace c
      then (if inRun then collapseFrom true s' else 32%N :: collapseFrom true s')
      else c :: collapseFrom false s'
  end.

Definition collapseWhiteSpace (s : jsstring) : jsstring := collapseFrom false s.

(** Decimal rendering of an array index in a template literal. *)
Definition decimal (n : nat) : jsstring :=
  lit (NilEmpty.string_of_uint (Nat.to_uint n)).

Fixpoint join (sep : jsstring) (parts : list jsstring) : jsstring :=
  match parts with
  | [] => []
  | [p] => p
  | p :: rest => p ++ sep ++ join sep rest
  end.

(** *** encodeURIComponent

    Unreserved code units are copied; every other code point is written as
    the percent-escaped octets of its UTF-8 encoding; an unpaired surrogate
    raises URIError. *)

Definition isUnreserved (c : N) : bool :=
  ((65 <=? c) && (c <=? 90) || (97 <=? c) && (c <=? 122)
   || (48 <=? c) && (c <=? 57)
   || (c =? 45) || (c =? 95) || (c =? 46) || (c =? 33) || (c =? 126)
   || (c =? 42) || (c =? 39) || (c =? 40) || (c =? 41))%N.

Definition isHighSurrogate (c : N) : bool := ((55296 <=? c) && (c <=? 56319))%N.
Definition isLowSurrogate (c : N) : bool := ((56320 <=? c) && (c <=? 57343))%N.

Definition utf8 (cp : N) : list N :=
  (if cp <? 128 then [cp]
   else if cp <? 2048 then [192 + cp / 64; 128 + cp mod 64]
   else if cp <? 65536 then
     [224 + cp / 4096; 128 + (cp / 64) mod 64; 128 + cp mod 64]
   else
     [240 + cp / 262144; 128 + (cp / 4096) mod 64;
      128 + (cp / 64) mod 64; 128 + cp mod 64])%N.

Definition hexDigit (d : N) : N := (if d <? 10 then 48 + d else 55 + d)%N.

Definition percent (octets : list N) : jsstring :=
  flat_map (fun o => [37; hexDigit (o / 16); hexDigit (o mod 16)]%N) octets.

Fixpoint encodeURIComponent (s : jsstring) : option jsstring :=
  match s with
  | [] => Some []
  | c :: s' =>
      if isUnreserved c then option_map (cons c) (encodeURIComponent s')
      else if isHighSurrogate c then
        match s' with
        | d :: s'' =>
            if isLowSurrogate d
            then option_map
                   (app (percent (utf8 ((c - 55296) * 1024 + (d - 56320) + 65536)%N)))
                   (encodeURIComponent s'')
            else None
        | [] => None
        end
      else if isLowSurrogate c then None
      else option_map (app (percent (utf8 c))) (encodeURIComponent s')
  end.

(** ** JSON values *)

Inductive value : Type :=
| VUndefined
| VNull
| VBool (b : bool)
| VNumber (q : Q)
| VString (s : jsstring)
| VArray (items : list value)
| VObject (props : list (string * value)).

Fixpoint lookup (k : string) (props : list (string * value)) : value :=
  match props with
  | [] => VUndefined
  | (k', v) :: rest => if String.eqb k k' then v else lookup k rest
  end.

(** [v?.k]: [undefined] on null, undefined and on every value without such
    a property. *)
Definition get (v : value) (k : string) : value :=
  match v with
  | VObject props => lookup k props
  | _ => VUndefined
  end.

Definition nullish (v : value) : bool :=
  match v with
  | VUndefined | VNull => true
  | _ => false
  end.

(** [a ?? b] *)
Definition coalesce (a b : value) : value := if nullish a then b else a.

Notation "a ?? b" := (coalesce a b) (at level 55, right associativity).
Notation "v ?. k" := (get v k) (at level 20, left associativity, format "v ?. k").

(** ToBoolean *)
Definition truthy (v : value) : bool :=
  match v with
  | VUndefined | VNull => false
  | VBool b => b
  | VNumber q => negb (Qeq_bool q 0%Q)
  | VString s => match s with [] => false | _ => true end
  | VArray _ | VObject _ => true
  end.

Definition isArray (v : value) : bool :=
  match v with VArray _ => true | _ => false end.

(** The receiver of [forEach], [filter] and [map]: a value that is not an
    array has no such method and the call raises TypeError. *)
Definition asArray (v : value) : option (list value) :=
  match v with VArray items => Some items | _ => None end.

(** [v.trim()] on a value already known to be a string. *)
Definition trimmed (v : value) : jsstring :=
  match v with
  | VString s => trim s
  | _ => []
  end.

(** [typeof v === 'string' && v.trim()] *)
Definition isNonBlankString (v : value) : bool :=
  match v with
  | VString s => truthy (VString (trim s))
  | _ => false
  end.

(** [new Date(n)] on a number: TimeClip of the integral part. *)
Definition timeClip (q : Q) : option Z :=
  if Qle_bool (Qabs q) (8640000000000000 # 1)%Q
  then Some (Z.quot (Qnum q) (Z.pos (Qden q)))
  else None.

(** ** Array.prototype.sort with a numeric comparator

    The sort is stable; with a consistent comparator its result is the one
    of any stable sort, here insertion. *)
Section Sort.
Variable A : Type.
Variable cmp : A -> A -> Z.

Fixpoint insert (x : A) (l : list A) : list A :=
  match l with
  | [] => [x]
  | y :: l' => if (cmp x y <=? 0)%Z then x :: l else y :: insert x l'
  end.

Definition sort (l : list A) : list A := fold_right insert [] l.
End Sort.

(** Exceptions: [None] is a raised exception. *)
Notation "x <- c ;; k" :=
  (match c with Some x => k | None => None end)
  (at level 61, c at next level, right associativity).

(** [map((item, index) => ...)] whose callback may raise. *)
Fixpoint mapiM (A B : Type) (f : nat -> A -> option B) (index : nat) (l : list A)
  : option (list B) :=
  match l with
  | [] => Some []
  | x :: l' =>
      y <- f index x ;;
      ys <- mapiM f (S index) l' ;;
      Some (y :: ys)
  end.

(** [forEach] whose body may raise. *)
Fixpoint forEachM (S A : Type) (body : S -> A -> option S) (l : list A) (s : S)
  : option S :=
  match l with
  | [] => Some s
  | x :: l' =>
      match body s x with
      | Some s' => forEachM body l' s'
      | None => None
      end
  end.

(** ** The host: built-ins whose result the language leaves to the engine,
    and the helpers of [utils/util.mjs]. *)

Record Engine : Type := {
  (** [Date.parse]: the time value of a date string, [None] for NaN. *)
  Date_parse : jsstring -> option Z;
  (** [String(v)] on a value that is not a string. *)
  ToStringOther : value -> jsstring;
  (** [Intl.DateTimeFormat('cs-CZ', {day, month}).format]. *)
  formatShortDate : Z -> jsstring
}.

(** Modelled from the spec: the date helpers of [utils/util.mjs].
    [formatDate] is the "formatted" rendering of a date and
    [describeRelativeDay] the relative-day indicator ("today", "tomorrow",
    "in N days"); both are total on a date-or-null argument. *)
Record Util : Type := {
  formatDate : option Z -> jsstring;
  describeRelativeDay : Z -> option Z -> jsstring
}.

Definition msPerDay : Z := 86400000.

(** Modelled from the spec: [startOfUtcDay] of [utils/util.mjs], the UTC
    midnight floor of an instant. *)
Definition startOfUtcDay (t : Z) : Z := (t - t mod msPerDay)%Z.

(** ** Canonical records *)

Module Mark.
Record t : Type := make {
  subjectName : value;
  markValue : value;
  editDate : Z;
  caption : value;
  theme : value
}.
End Mark.

Module Homework.
Record t : Type := make {
  subjectName : value;
  dueDate : option Z;
  content : jsstring
}.
End Homework.

Module Event.
Record t : Type := make {
  startDate : option Z;
  endDate : option Z;
  subjectName : value;
  title : jsstring;
  description : jsstring;
  type : jsstring
}.
End Event.

(** ** utils/bakalari.mjs *)

Section Bakalari.
Variable E : Engine.

Definition ToString (v : value) : jsstring :=
  match v with
  | VString s => s
  | _ => ToStringOther E v
  end.

(** The time value of [new Date(v)]; [None] when it is NaN.  An object or
    an array is first converted to its string. *)
Definition Date_new (v : value) : option Z :=
  match v with
  | VUndefined => None
  | VNull => Some 0%Z
  | VBool b => Some (if b then 1 else 0)%Z
  | VNumber q => timeClip q
  | VString s => Date_parse E s
  | VArray _ | VObject _ => Date_parse E (ToStringOther E v)
  end.

Definition extractSubjectName (subject : value) : value :=
  subject?."Subject"?."Abbrev" ?? subject?."Subject"?."Name" ??
  subject?."Name" ?? subject?."Abbrev" ?? VString (lit "Neznámý předmět").

Definition extractMarkValue (mark : value) : value :=
  mark?."MarkText" ??
  mark?."Text" ??
  mark?."Caption" ??
  mark?."ValueText" ??
  (match mark?."Value" with
   | VUndefined => VUndefined
   | v => VString (ToString v)
   end) ??
  (match mark?."Mark" with
   | VUndefined => VUndefined
   | v => VString (ToString v)
   end) ??
  VString [].

(** The locals [editDateString] and [editDate] of the inner loop. *)
Definition editDateString (mark : value) : value :=
  mark?."EditDate" ?? mark?."MarkDate" ?? mark?."Date" ??
  mark?."Created" ?? mark?."CreatedDate".

Definition editDate (mark : value) : option Z :=
  if truthy (editDateString mark) then Date_new (editDateString mark) else None.

(** The body of the inner [marks.forEach]; [push] appends. *)
Definition pushMark (subjectName : value) (allMarks : list Mark.t) (mark : value)
  : list Mark.t :=
  let markValue := extractMarkValue mark in
  match editDate mark with
  | Some t =>
      if truthy markValue
      then allMarks ++
           [Mark.make subjectName markValue t
              (mark?."Caption" ?? mark?."Theme" ?? VString [])
              (mark?."Theme" ?? VString [])]
      else allMarks
  | None => allMarks
  end.

(** The body of the outer [subjects.forEach]. *)
Definition pushSubject (allMarks : list Mark.t) (subject : value)
  : option (list Mark.t) :=
  let subjectName := extractSubjectName subject in
  let marks := subject?."Marks" ?? subject?."marks" ?? VArray [] in
  match asArray marks with
  | Some ms => Some (fold_left (pushMark subjectName) ms allMarks)
  | None => None
  end.

Definition collectMarks (subjects : value) : option (list Mark.t) :=
  match asArray subjects with
  | Some ss => forEachM pushSubject ss []
  | None => None
  end.

Definition byEditDateDesc (a b : Mark.t) : Z :=
  (Mark.editDate b - Mark.editDate a)%Z.

(** The two [map] stages of [fetchSubjectMarks] applied to the response
    body [data]; [fromDate] and [toDate] only parametrise the request. *)
Definition fetchSubjectMarks (fromDate toDate : Z) (data : value)
  : option (list Mark.t) :=
  let subjects := data?."Subjects" ?? data?."subjects" ?? VArray [] in
  match collectMarks subjects with
  | Some allMarks => Some (firstn 10 (sort byEditDateDesc allMarks))
  | None => None
  end.

Definition extractHomeworkDueDate (homework : value) : option Z :=
  let dateString :=
    homework?."DueDate" ??
    homework?."Deadline" ??
    homework?."Due" ??
    homework?."DateEnd" ??
    homework?."Date" ??
    homework?."Created" ??
    homework?."CreatedDate" ??
    homework?."DateStart" in
  if negb (truthy dateString) then None
  else Date_new dateString.

(** [candidates.find(v => typeof v === 'string' && v.trim())?.trim() ?? fallback] *)
Definition findNonBlank (candidates : list value) (fallback : jsstring) : jsstring :=
  match find isNonBlankString candidates with
  | Some v => trimmed v
  | None => fallback
  end.

Definition extractHomeworkContent (homework : value) : jsstring :=
  let possibleContents :=
    [homework?."HomeworkText";
     homework?."Text";
     homework?."Description";
     homework?."Title";
     homework?."Content";
     homework?."Note";
     homework?."Name"] in
  findNonBlank possibleContents [].

Definition isHomeworkWithinRange (homework : value) (fromDate toDate : Z) : bool :=
  match extractHomeworkDueDate homework with
  | None => false
  | Some dueDate =>
      let startOfDueDay := startOfUtcDay dueDate in
      let startOfFromDay := startOfUtcDay fromDate in
      let startOfToDay := startOfUtcDay toDate in
      (startOfDueDay >=? startOfFromDay)%Z && (startOfDueDay <=? startOfToDay)%Z
  end.

(** [a.dueDate - b.dueDate]; [null] converts to 0. *)
Definition timeOr0 (d : option Z) : Z :=
  match d with Some t => t | None => 0%Z end.

Definition byDueDateAsc (a b : Homework.t) : Z :=
  (timeOr0 (Homework.dueDate a) - timeOr0 (Homework.dueDate b))%Z.

Definition isSome (A : Type) (o : option A) : bool :=
  match o with Some _ => true | None => false end.

Definition fetchHomeworks (fromDate toDate : Z) (data : value)
  : option (list Homework.t) :=
  let homeworks := data?."Homeworks" ?? data?."homeworks" ?? VArray [] in
  match asArray homeworks with
  | Some hs =>
      Some (sort byDueDateAsc
              (filter (fun homework => isSome (Homework.dueDate homework))
                 (map (fun homework =>
                         Homework.make (extractSubjectName homework)
                           (extractHomeworkDueDate homework)
                           (extractHomeworkContent homework))
                    (filter (fun homework =>
                               isHomeworkWithinRange homework fromDate toDate)
                       hs))))
  | None => None
  end.

(** [parseDate] on a JSON value (which is never a [Date] instance). *)
Definition parseDate (dateValue : value) : option Z :=
  if negb (truthy dateValue) then None
  else Date_new dateValue.

Fixpoint firstParsed (possibleDates : list value) : option Z :=
  match possibleDates with
  | [] => None
  | dateString :: rest =>
      match parseDate dateString with
      | Some parsed => Some parsed
      | None => firstParsed rest
      end
  end.

Definition extractEventStartDate (event : value) : option Z :=
  firstParsed
    [event?."DateFrom"; event?."Start"; event?."Date"; event?."From";
     event?."Begin"; event?."Since"].

Definition extractEventEndDate (event : value) : option Z :=
  match firstParsed
          [event?."DateTo"; event?."End"; event?."To"; event?."Finish";
           event?."Until"] with
  | Some parsed => Some parsed
  | None => extractEventStartDate event
  end.

Definition extractEventTitle (event : value) : jsstring :=
  findNonBlank
    [event?."Title"; event?."Name"; event?."Caption"; event?."Description"]
    (lit "Neznámá událost").

Definition extractEventDescription (event : value) : jsstring :=
  findNonBlank
    [event?."Description"; event?."Note"; event?."Content"; event?."Text";
     event?."HomeworkText"]
    [].

Definition extractEventType (event : value) : jsstring :=
  let type := event?."Type" ?? event?."EventType" ?? event?."EventKind" in
  if isNonBlankString type then trimmed type
  else if isNonBlankString (type?."Name") then trimmed (type?."Name")
  else if isNonBlankString (type?."Abbrev") then trimmed (type?."Abbrev")
  else [].

Definition isEventWithinRange (event : Event.t) (fromDate toDate : Z) : bool :=
  match Event.startDate event with
  | None => false
  | Some startDate =>
      let startOfEventDay := startOfUtcDay startDate in
      let startOfFromDay := startOfUtcDay fromDate in
      let startOfToDay := startOfUtcDay toDate in
      (startOfEventDay >=? startOfFromDay)%Z && (startOfEventDay <=? startOfToDay)%Z
  end.

Definition byStartDateAsc (a b : Event.t) : Z :=
  (timeOr0 (Event.startDate a) - timeOr0 (Event.startDate b))%Z.

Definition normalizeEvent (event : value) : Event.t :=
  Event.make (extractEventStartDate event) (extractEventEndDate event)
    (extractSubjectName event) (extractEventTitle event)
    (extractEventDescription event) (extractEventType event).

Definition fetchEvents (fromDate toDate : Z) (data : value)
  : option (list Event.t) :=
  let events := data?."Events" ?? data?."events" ?? VArray [] in
  match asArray events with
  | Some es =>
      Some (sort byStartDateAsc
              (filter (fun event => isEventWithinRange event fromDate toDate)
                 (map normalizeEvent es)))
  | None => None
  end.

End Bakalari.

(** ** marks-sync.mjs and homeworks-sync.mjs *)

(** The first argument of an encoder: an array of canonical records, or any
    value that is not an array. *)
Inductive arg (A : Type) : Type :=
| ArgArray (items : list A)
| ArgOther (v : value).

Arguments ArgOther {A} v.

Section Sync.
Variable E : Engine.
Variable U : Util.

(** [s.trim()] as a method call: on anything but a string it raises
    TypeError. *)
Definition callTrim (v : value) : option jsstring :=
  match v with
  | VString s => Some (trim s)
  | _ => None
  end.

Definition noMarksMessage : jsstring :=
  lit "Žádné nové známky za vybrané období.".

Definition noHomeworksMessage : jsstring :=
  lit "Žádné nadcházející domácí úkoly.".

(** [today] is the value of [new Date()] at the time of the call. *)
Definition buildMarksQueryString (today : Z) (marks : arg Mark.t)
    (linePrefix updatedParam : jsstring) : option jsstring :=
  match marks with
  | ArgArray ((mark0 :: _) as marks) =>
      lines <- mapiM (fun index mark =>
                 subject <- callTrim (Mark.subjectName mark) ;;
                 let line :=
                   subject ++ lit ": " ++ ToString E (Mark.markValue mark)
                   ++ lit " (" ++ formatShortDate E (Mark.editDate mark)
                   ++ lit ")" in
                 encoded <- encodeURIComponent line ;;
                 Some (linePrefix ++ lit "_" ++ decimal (index + 1)
                       ++ lit "=" ++ encoded)) 0 marks ;;
      let newestEditDate := Mark.editDate mark0 in
      updated <- encodeURIComponent (formatDate U (Some newestEditDate)) ;;
      Some (join (lit "&") (lines ++ [updatedParam ++ lit "=" ++ updated]))
  | _ =>
      message <- encodeURIComponent noMarksMessage ;;
      updated <- encodeURIComponent (formatDate U (Some today)) ;;
      Some (join (lit "&")
              [linePrefix ++ lit "_1=" ++ message;
               updatedParam ++ lit "=" ++ updated])
  end.

(** The [line] of one homework, before truncation and encoding. *)
Definition homeworkLine (generatedAt : Z) (homework : Homework.t) : jsstring :=
  let indicator := describeRelativeDay U generatedAt (Homework.dueDate homework) in
  let subject := ToString E (Homework.subjectName homework) in
  let content :=
    collapseWhiteSpace
      (match Homework.content homework with
       | [] => lit "Bez popisu"
       | c => c
       end) in
  let dueDateText := formatDate U (Homework.dueDate homework) in
  lit "[" ++ indicator ++ lit "] " ++ subject ++ lit ": " ++ content
  ++ lit " – " ++ dueDateText.

Definition truncateLine (line : jsstring) : jsstring :=
  if 50 <? List.length line then substring0 49 line ++ lit "..." else line.

Definition buildHomeworksQueryString (homeworks : arg Homework.t)
    (generatedAt : Z) (linePrefix updatedParam : jsstring) : option jsstring :=
  match homeworks with
  | ArgArray ((_ :: _) as homeworks) =>
      lines <- mapiM (fun index homework =>
                 let line := homeworkLine generatedAt homework in
                 let truncatedLine := truncateLine line in
                 encoded <- encodeURIComponent truncatedLine ;;
                 Some (linePrefix ++ lit "_" ++ decimal (index + 1)
                       ++ lit "=" ++ encoded)) 0 (firstn 10 homeworks) ;;
      updated <- encodeURIComponent (formatDate U (Some generatedAt)) ;;
      Some (join (lit "&") (lines ++ [updatedParam ++ lit "=" ++ updated]))
  | _ =>
      message <- encodeURIComponent noHomeworksMessage ;;
      updated <- encodeURIComponent (formatDate U (Some generatedAt)) ;;
      Some (join (lit "&")
              [linePrefix ++ lit "_1=" ++ message;
               updatedParam ++ lit "=" ++ updated])
  end.

(** The marks pipeline of [marks-sync.mjs] from the response body on:
    [fetchSubjectMarks(fromDate, now)] then [buildMarksQueryString]. *)
Definition marksSync (now fromDate today : Z) (data : value)
    (gradesLinePrefix gradesUpdatedParam : jsstring) : option jsstring :=
  marks <- fetchSubjectMarks E fromDate now data ;;
  buildMarksQueryString today (ArgArray marks) gradesLinePrefix gradesUpdatedParam.

(** The homework pipeline of [homeworks-sync.mjs] from the response body
    on; [fromDate] is the start of today's UTC day, [toDate] one month
    later. *)
Definition homeworksSync (now toDate : Z) (data : value)
    (homeworksLinePrefix homeworksUpdatedParam : jsstring) : option jsstring :=
  let fromDate := startOfUtcDay now in
  homeworks <- fetchHomeworks E fromDate toDate data ;;
  buildHomeworksQueryString (ArgArray homeworks) now
    homeworksLinePrefix homeworksUpdatedParam.

End Sync.

(** ** A reference host

    An instance of [Engine] and [Util] on which the model runs: [Date.parse]
    reads the two ISO forms every engine must accept in the same way
    (a date alone, and a date with a UTC time), and rejects the rest. *)

Module Ref.

Definition digit (c : N) : option Z :=
  if ((48 <=? c) && (c <=? 57))%N then Some (Z.of_N c - 48)%Z else None.

Fixpoint number (acc : Z) (s : jsstring) : option Z :=
  match s with
  | [] => Some acc
  | c :: s' => d <- digit c ;; number (10 * acc + d)%Z s'
  end.

Definition isLeap (y : Z) : bool :=
  ((y mod 4 =? 0) && negb (y mod 100 =? 0) || (y mod 400 =? 0))%Z.

Definition daysInMonth (y m : Z) : Z :=
  (if m =? 2 then (if isLeap y then 29 else 28)
   else if (m =? 4) || (m =? 6) || (m =? 9) || (m =? 11) then 30
   else 31)%Z.

(** Days from 1970-01-01 to the civil date [y]-[m]-[d]. *)
Definition daysFromCivil (y m d : Z) : Z :=
  (let y' := if m <=? 2 then y - 1 else y in
   let era := y' / 400 in
   let yoe := y' - era * 400 in
   let doy := (153 * (if 2 <? m then m - 3 else m + 9) + 2) / 5 + d - 1 in
   let doe := yoe * 365 + yoe / 4 - yoe / 100 + doy in
   era * 146097 + doe - 719468)%Z.

(** The civil date of a day number. *)
Definition civilFromDays (days : Z) : Z * Z * Z :=
  (let z := days + 719468 in
   let era := z / 146097 in
   let doe := z - era * 146097 in
   let yoe := (doe - doe / 1460 + doe / 36524 - doe / 146096) / 365 in
   let doy := doe - (365 * yoe + yoe / 4 - yoe / 100) in
   let mp := (5 * doy + 2) / 153 in
   let d := doy - (153 * mp + 2) / 5 + 1 in
   let m := if mp <? 10 then mp + 3 else mp - 9 in
   (if m <=? 2 then yoe + era * 400 + 1 else yoe + era * 400, m, d))%Z.

Definition parseDay (s : jsstring) : option Z :=
  match s with
  | [y1; y2; y3; y4; 45; m1; m2; 45; d1; d2]%N =>
      y <- number 0 [y1; y2; y3; y4] ;;
      m <- number 0 [m1; m2] ;;
      d <- number 0 [d1; d2] ;;
      if ((1 <=? m) && (m <=? 12) && (1 <=? d) && (d <=? daysInMonth y m))%Z
      then Some (daysFromCivil y m d * msPerDay)%Z
      else None
  | _ => None
  end.

Definition parseTime (s : jsstring) : option Z :=
  match s with
  | [h1; h2; 58; m1; m2; 58; s1; s2; 90]%N =>
      h <- number 0 [h1; h2] ;;
      m <- number 0 [m1; m2] ;;
      sec <- number 0 [s1; s2] ;;
      if ((h <=? 23) && (m <=? 59) && (sec <=? 59))%Z
      then Some ((h * 3600 + m * 60 + sec) * 1000)%Z
      else None
  | _ => None
  end.

(** "YYYY-MM-DD" and "YYYY-MM-DDTHH:mm:ssZ". *)
Definition parse (s : jsstring) : option Z :=
  match skipn 10 s with
  | [] => parseDay s
  | 84%N :: time =>
      day <- parseDay (firstn 10 s) ;;
      ms <- parseTime time ;;
      Some (day + ms)%Z
  | _ => None
  end.

Definition showZ (z : Z) : jsstring :=
  if (z <? 0)%Z then lit "-" ++ decimal (Z.to_nat (- z)) else decimal (Z.to_nat z).

(** [String(v)] for plain data; a number prints as its integral part. *)
Fixpoint toStringOther (v : value) : jsstring :=
  match v with
  | VUndefined => lit "undefined"
  | VNull => lit "null"
  | VBool b => if b then lit "true" else lit "false"
  | VNumber q => showZ (Z.quot (Qnum q) (Z.pos (Qden q)))
  | VString s => s
  | VArray items =>
      join (lit ",")
        ((fix each (l : list value) : list jsstring :=
            match l with
            | [] => []
            | x :: l' => (if nullish x then [] else toStringOther x) :: each l'
            end) items)
  | VObject _ => lit "[object Object]"
  end.

Definition shortDate (t : Z) : jsstring :=
  let '(_, m, d) := civilFromDays (t / msPerDay) in
  showZ d ++ lit ". " ++ showZ m ++ lit ".".

Definition engine : Engine :=
  {| Date_parse := parse;
     ToStringOther := toStringOther;
     formatShortDate := shortDate |}.

Definition longDate (date : option Z) : jsstring :=
  match date with
  | Some t =>
      let '(y, m, d) := civilFromDays (t / msPerDay) in
      showZ d ++ lit ". " ++ showZ m ++ lit ". " ++ showZ y
  | None => lit "Invalid Date"
  end.

Definition relativeDay (now : Z) (date : option Z) : jsstring :=
  match date with
  | Some t =>
      let n := (t / msPerDay - now / msPerDay)%Z in
      if (n =? 0)%Z then lit "dnes"
      else if (n =? 1)%Z then lit "zítra"
      else if (1 <? n)%Z then lit "za " ++ showZ n ++ lit " dní"
      else lit "po termínu"
  | None => lit "?"
  end.

Definition util : Util :=
  {| formatDate := longDate; describeRelativeDay := relativeDay |}.

(** Building records by hand. *)
Definition str (s : string) : value := VString (lit s).
Definition obj (props : list (string * value)) : value := VObject props.

Definition mark (text date : string) : value :=
  obj [("MarkText", str text); ("EditDate", str date)]%string.

Definition subject (abbrev : string) (marks : list value) : value :=
  obj [("Subject", obj [("Abbrev", str abbrev)]); ("Marks", VArray marks)]%string.

(** Two subject groups with fifteen marks on fifteen different days. *)
Definition fifteenMarks : list value :=
  [subject "M"
     [mark "1" "2024-03-07"; mark "2" "2024-03-01"; mark "1-" "2024-03-12";
      mark "3" "2024-03-04"; mark "2" "2024-03-15"; mark "4" "2024-03-09";
      mark "1" "2024-03-02"; mark "2-" "2024-03-11"];
   subject "CJ"
     [mark "2" "2024-03-05"; mark "1" "2024-03-14"; mark "3" "2024-03-03";
      mark "5" "2024-03-10"; mark "1" "2024-03-06"; mark "2" "2024-03-13";
      mark "1" "2024-03-08"]]%string.

Definition marksPayload : value :=
  obj [("Subjects", VArray fifteenMarks)]%string.

(** A mark whose text arrives as the JSON number 1. *)
Definition numericMarkPayload : value :=
  VArray
    [subject "M"
       [obj [("MarkText", VNumber 1%Q); ("EditDate", str "2024-03-10")]]]%string.



(** 2024-03-10, and homework due that day: a line of 51 code units before
    truncation, and a line of exactly 50. *)
Definition day : Z := 1710028800000.

Definition longHomework : Homework.t :=
  Homework.make (str "M") (Some day) (lit "abcdefghijklmnopqrstuvwxyza").

Definition fiftyHomework : Homework.t :=
  Homework.make (str "M") (Some day) (lit "abcdefghijklmnopqrstuvwxyz").

Definition twoHomeworks : list Homework.t := [longHomework; fiftyHomework].

(** The instant a date string denotes. *)
Definition instant (s : string) : Z := timeOr0 (parse (lit s)).

(** A homework whose rendered line has the two code units of U+1F600 at
    positions 48 and 49. *)
Definition emojiHomework : Homework.t :=
  Homework.make (str "M") (Some day)
    (lit "abcdefghijklmnopqrstuvwxyzabcdefghijkl" ++ [55357; 56832]%N).

(** A subject group whose abbreviation arrives as the JSON number 5. *)
Definition numericSubjectPayload : value :=
  obj [("Subjects",
        VArray [obj [("Subject", obj [("Abbrev", VNumber 5%Q)]);
                     ("Marks", VArray [mark "1" "2024-03-10"])]])]%string.

(** The result of a run that is known not to raise. *)
Definition returned (A : Type) (r : option (list A)) : list A :=
  match r with Some x => x | None => [] end.

End Ref.

(** ** Specification-level notions *)

(** A candidate value that field resolution passes over: anything that is
    not a string (an absent field reads as [undefined]), and a string that is
    empty or holds white space only. *)
Definition skipped (v : value) : Prop :=
  forall s, v = VString s -> forallb isWhiteSpace s = true.

(** [resolves fallback candidates r]: [r] is the trimmed first candidate
    that is not skipped, or [fallback] when every candidate is skipped. *)
Inductive resolves (fallback : jsstring) : list value -> jsstring -> Prop :=
| resolves_first before s after :
    Forall skipped before ->
    forallb isWhiteSpace s = false ->
    resolves fallback (before ++ VString s :: after) (trim s)
| resolves_none candidates :
    Forall skipped candidates ->
    resolves fallback candidates fallback.

(** Field resolution in the words of the specification: the trimmed first
    candidate that is a string with content, else [undefined]. *)
Definition resolveField (record : value) (candidates : list string) : value :=
  match find isNonBlankString (map (get record) candidates) with
  | Some v => VString (trimmed v)
  | None => VUndefined
  end.

(** Date resolution in the words of the specification: the first candidate
    field that parses to a valid instant. *)
Definition resolveDate (E : Engine) (record : value) (candidates : list string)
  : option Z :=
  firstParsed E (map (get record) candidates).

(** The nested mark list of a subject group, as the outer loop reads it. *)
Definition marksOf (subject : value) : option (list value) :=
  asArray (subject?."Marks" ?? subject?."marks" ?? VArray []).

Definition hasMarksArray (subject : value) : bool := isSome (marksOf subject).

(** The valid marks of all subject groups, in payload order: for every
    group, every nested mark that normalisation keeps. *)
Definition validMarks (E : Engine) (subjects : list value) : list Mark.t :=
  flat_map
    (fun subject =>
       flat_map (pushMark E (extractSubjectName subject) [])
         (match marksOf subject with Some marks => marks | None => [] end))
    subjects.

Definition newerOrEqual (a b : Mark.t) : Prop :=
  (Mark.editDate b <= Mark.editDate a)%Z.


(** The range filter in the words of the specification. *)
Definition dayFloor : Z -> Z := startOfUtcDay.

Definition inRange (candidateDate fromDate toDate : Z) : Prop :=
  (dayFloor candidateDate >= dayFloor fromDate
   /\ dayFloor candidateDate <= dayFloor toDate)%Z.

(** [a] may stand before [b] in an array sorted with comparator [cmp]. *)
Definition before (A : Type) (cmp : A -> A -> Z) (a b : A) : Prop :=
  (cmp a b <= 0)%Z.



(** The value a chain [c1 ?? c2 ?? ... ?? cn] selects: the first candidate
    that is neither null nor undefined. *)
Fixpoint firstPresent (candidates : list value) : value :=
  match candidates with
  | [] => VUndefined
  | [c] => c
  | c :: rest => c ?? firstPresent rest
  end.

(** ** Further functions of the sources *)

(** *** utils/bakalari.mjs: [normalizeConfig] and [isMarkWithinRange] *)

Inductive ConfigError : Type :=
| TypeError            (** destructuring null or undefined *)
| MissingBaseUrl       (** 'Missing Bakaláři base URL.' *)
| MissingCredentials.  (** 'Missing Bakaláři credentials.' *)

Module Config.
Record t : Type := make {
  baseUrl : jsstring;
  username : jsstring;
  password : jsstring
}.
End Config.

(** [s.replace(/\/$/, '')]: a slash at the very end of the string is
    removed. *)
Definition stripTrailingSlash (s : jsstring) : jsstring :=
  match rev s with
  | c :: r => if (c =? 47)%N then rev r else s
  | [] => s
  end.

Definition normalizeConfig (config : value) : ConfigError + Config.t :=
  if nullish config then inl TypeError
  else
    let baseUrl := config?."baseUrl" in
    let username := config?."username" in
    let password := config?."password" in
    if negb (isNonBlankString baseUrl) then inl MissingBaseUrl
    else if negb (isNonBlankString username) || negb (isNonBlankString password)
    then inl MissingCredentials
    else inr (Config.make (stripTrailingSlash (trimmed baseUrl))
                (trimmed username) (trimmed password)).

Definition isMarkWithinRange (E : Engine) (mark : value) (fromDate toDate : Z)
  : bool :=
  let dateString :=
    mark?."MarkDate" ?? mark?."Date" ?? mark?."Created" ?? mark?."CreatedDate" in
  if negb (truthy dateString) then false
  else
    match Date_new E dateString with
    | None => false
    | Some markDate => (markDate >=? fromDate)%Z && (markDate <=? toDate)%Z
    end.

(** *** marks-sync.mjs and homeworks-sync.mjs: command-line values

    [values] is the object of named options and [positionals] the array of
    positional arguments that [parseArgs] returns. *)

Definition resolveValue (values : value) (positionals : list value)
    (name : string) (index : nat) : value :=
  values?.name ?? nth index positionals VUndefined.

Definition resolveWithDefault (values : value) (positionals : list value)
    (name : string) (index : nat) (fallback : jsstring) : jsstring :=
  let candidate := resolveValue values positionals name index in
  if isNonBlankString candidate then trimmed candidate else fallback.

(** ** Further specification-level notions *)

(** Every element is a UTF-16 code unit. *)
Definition codeUnits (s : jsstring) : bool :=
  forallb (fun c => (c <? 65536)%N) s.


(** The characters of a percent-encoded value: unreserved ones and [%];
    among others neither [&] nor [=]. *)
Definition urlSafe (s : jsstring) : Prop :=
  Forall (fun c => isUnreserved c = true \/ c = 37%N) s.

(** [linePrefix_k=value] for the values of a list, numbered from [first]. *)
Definition numbered (linePrefix : jsstring) (first : nat) (values : list jsstring)
  : list jsstring :=
  map (fun kv => linePrefix ++ lit "_" ++ decimal (fst kv) ++ lit "=" ++ snd kv)
    (combine (seq first (List.length values)) values).

(** The text of the line of one mark, before encoding; the call of
    [trim] on the subject name may raise. *)
Definition markLine (E : Engine) (mark : Mark.t) : option jsstring :=
  subject <- callTrim (Mark.subjectName mark) ;;
  Some (subject ++ lit ": " ++ ToString E (Mark.markValue mark)
        ++ lit " (" ++ formatShortDate E (Mark.editDate mark) ++ lit ")").




(** A string without white space at either end. *)
Definition trimmedString (s : jsstring) : Prop :=
  trimStart s = s /\ trimStart (rev s) = rev s.

(** The white space of a string is single spaces only. *)
Fixpoint singleSpaced (s : jsstring) : Prop :=
  match s with
  | [] => True
  | c :: s' =>
      (isWhiteSpace c = true ->
       c = 32%N /\ match s' with d :: _ => isWhiteSpace d = false | [] => True end)
      /\ singleSpaced s'
  end.

(** * Properties *)

(** ** Strings *)

Lemma trimStart_nil (s : jsstring) :
  trimStart s = [] <-> forallb isWhiteSpace s = true.
Proof.
  induction s as [|c s IH]; simpl.
  - tauto.
  - destruct (isWhiteSpace c); simpl.
    + exact IH.
    + split; discriminate.
Qed.

Lemma trimStart_head (s : jsstring) c r :
  trimStart s = c :: r -> isWhiteSpace c = false.
Proof.
  induction s as [|d s IH]; simpl; [discriminate|].
  destruct (isWhiteSpace d) eqn:Hd; [exact IH|].
  intros H; injection H as -> _; exact Hd.
Qed.

Lemma forallb_rev (A : Type) (p : A -> bool) (l : list A) :
  forallb p (rev l) = forallb p l.
Proof.
  induction l as [|x l IH]; simpl; [reflexivity|].
  rewrite forallb_app, IH; simpl.
  rewrite andb_true_r; apply andb_comm.
Qed.

Lemma trim_nil (s : jsstring) :
  trim s = [] <-> forallb isWhiteSpace s = true.
Proof.
  unfold trim, trimEnd; split.
  - intros H.
    apply (f_equal (@rev N)) in H; rewrite rev_involutive in H; simpl in H.
    apply trimStart_nil in H; rewrite forallb_rev in H.
    destruct (trimStart s) as [|c r] eqn:Hs.
    + apply trimStart_nil; exact Hs.
    + apply trimStart_head in Hs; simpl in H; rewrite Hs in H; discriminate.
  - intros H; apply trimStart_nil in H; rewrite H; reflexivity.
Qed.

Lemma isNonBlankString_false (v : value) :
  isNonBlankString v = false <-> skipped v.
Proof.
  unfold skipped; destruct v as [| |b|q|s|items|props]; simpl;
    try (split; [intros _ s' H; discriminate H | reflexivity]).
  destruct (trim s) as [|c r] eqn:Ht.
  - split; [|reflexivity].
    intros _ s' H; injection H as <-; apply trim_nil; exact Ht.
  - split; [discriminate|].
    intros H; specialize (H s eq_refl); apply trim_nil in H; congruence.
Qed.

Lemma isNonBlankString_true (v : value) :
  isNonBlankString v = true ->
  exists s, v = VString s /\ forallb isWhiteSpace s = false.
Proof.
  destruct v as [| |b|q|s|items|props]; simpl; try discriminate.
  intros H; exists s; split; [reflexivity|].
  destruct (forallb isWhiteSpace s) eqn:Hw; [|reflexivity].
  apply trim_nil in Hw; rewrite Hw in H; discriminate.
Qed.

(** ** FieldResolver *)

Lemma findNonBlank_resolves (candidates : list value) (fallback : jsstring) :
  resolves fallback candidates (findNonBlank candidates fallback).
Proof.
  unfold findNonBlank.
  assert (G : forall pre l,
             Forall skipped pre ->
             resolves fallback (pre ++ l)
               match find isNonBlankString l with
               | Some v => trimmed v
               | None => fallback
               end).
  { intros pre l; revert pre.
    induction l as [|v l IH]; intros pre Hpre; simpl.
    - rewrite app_nil_r; apply resolves_none; exact Hpre.
    - destruct (isNonBlankString v) eqn:Hv.
      + destruct (isNonBlankString_true _ Hv) as (s & -> & Hs); simpl.
        apply resolves_first; assumption.
      + replace (pre ++ v :: l) with ((pre ++ [v]) ++ l)
          by (rewrite <- app_assoc; reflexivity).
        apply IH, Forall_app; split; [exact Hpre|].
        constructor; [|constructor].
        apply isNonBlankString_false; exact Hv. }
  apply (G [] candidates); constructor.
Qed.

(** C2 (as amended).  Content resolution of a homework, and title and
    description resolution of an event, return the trimmed value of the
    first candidate, in the listed order, that is a string with content;
    candidates that are absent, not strings, empty or white space only are
    passed over.  The functions are total on every value (they never
    raise), and when no candidate qualifies they return the resolver's own
    default string, which is the empty string for content and description
    and a fixed label for the title; the result is never [undefined]. *)
Theorem C2_field_resolution (record : value) :
  resolves []
    (map (get record)
       ["HomeworkText"; "Text"; "Description"; "Title"; "Content"; "Note"; "Name"]%string)
    (extractHomeworkContent record)
  /\ resolves (lit "Neznámá událost")
       (map (get record) ["Title"; "Name"; "Caption"; "Description"]%string)
       (extractEventTitle record)
  /\ resolves []
       (map (get record)
          ["Description"; "Note"; "Content"; "Text"; "HomeworkText"]%string)
       (extractEventDescription record).
Proof.
  repeat split; apply findNonBlank_resolves.
Qed.

(** C2 fails as stated.  On a record without any candidate the content
    resolver answers the empty string where the claim says [undefined]; and
    the mark-value resolver returns a white-space-only first candidate as it
    is, where the claim says it is skipped in favour of the next one. *)
Lemma C2_counterexample :
  extractHomeworkContent (VObject []) = []
  /\ VString (extractHomeworkContent (VObject []))
     <> resolveField (VObject [])
          ["HomeworkText"; "Text"; "Description"; "Title"; "Content"; "Note"; "Name"]%string
  /\ extractMarkValue Ref.engine
       (VObject [("MarkText", VString (lit "  ")); ("Text", VString (lit "1"))]%string)
     = VString (lit "  ")
  /\ resolveField
       (VObject [("MarkText", VString (lit "  ")); ("Text", VString (lit "1"))]%string)
       ["MarkText"; "Text"; "Caption"; "ValueText"; "Value"; "Mark"]%string
     = VString (lit "1").
Proof.
  repeat split; try reflexivity.
  vm_compute; discriminate.
Qed.

(** ** DateResolver *)

(** The event resolvers try every candidate: the first one that parses
    wins, whatever the earlier ones hold. *)
Lemma firstParsed_first_valid (E : Engine) (before after : list value) v t :
  Forall (fun c => parseDate E c = None) before ->
  parseDate E v = Some t ->
  firstParsed E (before ++ v :: after) = Some t.
Proof.
  intros Hb Hv; induction Hb as [|c before Hc _ IH]; simpl.
  - rewrite Hv; reflexivity.
  - rewrite Hc; exact IH.
Qed.

Lemma firstParsed_none (E : Engine) (candidates : list value) :
  Forall (fun c => parseDate E c = None) candidates <->
  firstParsed E candidates = None.
Proof.
  induction candidates as [|c l IH]; simpl.
  - split; [reflexivity | constructor].
  - destruct (parseDate E c) eqn:Hc.
    + split; [|discriminate].
      intros H; inversion H; congruence.
    + rewrite <- IH; split.
      * intros H; inversion H; assumption.
      * intros H; constructor; assumption.
Qed.

(** The homework resolver parses one candidate only: the first field of its
    list that is present.  The edit date of a mark is resolved likewise. *)
Lemma extractHomeworkDueDate_chain (E : Engine) (homework : value) :
  extractHomeworkDueDate E homework
  = let dateString :=
      firstPresent
        (map (get homework)
           ["DueDate"; "Deadline"; "Due"; "DateEnd"; "Date"; "Created";
            "CreatedDate"; "DateStart"]%string) in
    if truthy dateString then Date_new E dateString else None.
Proof.
  unfold extractHomeworkDueDate; simpl.
  match goal with |- context [truthy ?v] => destruct (truthy v) end; reflexivity.
Qed.

Lemma editDate_chain (E : Engine) (mark : value) :
  editDate E mark
  = let dateString :=
      firstPresent
        (map (get mark)
           ["EditDate"; "MarkDate"; "Date"; "Created"; "CreatedDate"]%string) in
    if truthy dateString then Date_new E dateString else None.
Proof. reflexivity. Qed.

(** C1 at the failing input.  A homework whose [DueDate] is unparseable and
    whose [Deadline] is a valid date: resolution over the candidates, as the
    event resolvers do it, finds the deadline, while
    [extractHomeworkDueDate] stops at the first present field and returns
    null.  The edit date of a mark is resolved by the same kind of chain and
    stops in the same way, here on an empty [EditDate]. *)
Theorem C1_due_date_stops_at_first_present_field :
  let homework :=
    VObject [("DueDate", VString (lit "n/a"));
             ("Deadline", VString (lit "2024-03-10"))]%string in
  let mark :=
    VObject [("EditDate", VString []);
             ("MarkDate", VString (lit "2024-03-10"))]%string in
  resolveDate Ref.engine homework
    ["DueDate"; "Deadline"; "Due"; "DateEnd"; "Date"; "Created"; "CreatedDate";
     "DateStart"]%string
  = Some 1710028800000%Z
  /\ extractHomeworkDueDate Ref.engine homework = None
  /\ resolveDate Ref.engine mark
       ["EditDate"; "MarkDate"; "Date"; "Created"; "CreatedDate"]%string
     = Some 1710028800000%Z
  /\ editDate Ref.engine mark = None.
Proof.
  repeat split; vm_compute; reflexivity.
Qed.

(** ** DayBoundary and RangeFilter *)

Lemma startOfUtcDay_div (t : Z) :
  startOfUtcDay t = (msPerDay * (t / msPerDay))%Z.
Proof.
  unfold startOfUtcDay.
  pose proof (Z.div_mod t msPerDay) as H.
  assert (msPerDay <> 0%Z) by (unfold msPerDay; lia).
  specialize (H H0); lia.
Qed.

Lemma startOfUtcDay_le (a b : Z) :
  (startOfUtcDay a <= startOfUtcDay b <-> a / msPerDay <= b / msPerDay)%Z.
Proof.
  rewrite !startOfUtcDay_div; unfold msPerDay; lia.
Qed.

Lemma sameDay_between (d day : Z) :
  (startOfUtcDay day <= startOfUtcDay d <= startOfUtcDay day
   <-> d / msPerDay = day / msPerDay)%Z.
Proof.
  rewrite !startOfUtcDay_le; lia.
Qed.

Lemma withinDays_true (d fromDate toDate : Z) :
  ((startOfUtcDay d >=? startOfUtcDay fromDate)
   && (startOfUtcDay d <=? startOfUtcDay toDate))%Z = true
  <-> inRange d fromDate toDate.
Proof.
  unfold inRange, dayFloor.
  rewrite andb_true_iff, Z.geb_le, Z.leb_le; lia.
Qed.

(** C3.  The range filter keeps a record exactly when it has a candidate
    date whose UTC day floor lies between the day floors of [fromDate] and
    [toDate], both ends included; this holds for the homework filter (on the
    resolved due date) and for the event filter (on the start date).  When
    the two ends of the range are the same instant, the records kept are
    exactly those whose date lies on that UTC calendar day, whatever the
    time of day of either. *)
Theorem C3_range_filter (E : Engine) (homework : value) (event : Event.t)
    (fromDate toDate : Z) :
  (isHomeworkWithinRange E homework fromDate toDate = true <->
   exists dueDate, extractHomeworkDueDate E homework = Some dueDate
                   /\ inRange dueDate fromDate toDate)
  /\ (isEventWithinRange event fromDate toDate = true <->
      exists startDate, Event.startDate event = Some startDate
                        /\ inRange startDate fromDate toDate)
  /\ (isHomeworkWithinRange E homework fromDate fromDate = true <->
      exists dueDate, extractHomeworkDueDate E homework = Some dueDate
                      /\ (dueDate / msPerDay = fromDate / msPerDay)%Z)
  /\ (isEventWithinRange event fromDate fromDate = true <->
      exists startDate, Event.startDate event = Some startDate
                        /\ (startDate / msPerDay = fromDate / msPerDay)%Z).
Proof.
  assert (same : forall d day, inRange d day day <->
                               (d / msPerDay = day / msPerDay)%Z).
  { intros d day; unfold inRange, dayFloor.
    rewrite <- sameDay_between; lia. }
  assert (hw : forall f t,
             isHomeworkWithinRange E homework f t = true <->
             exists d, extractHomeworkDueDate E homework = Some d
                       /\ inRange d f t).
  { intros f t; unfold isHomeworkWithinRange.
    destruct (extractHomeworkDueDate E homework) as [d|]; cbv zeta.
    - rewrite withinDays_true; split.
      + intros H; exists d; split; [reflexivity | exact H].
      + intros (d' & Hd & H); injection Hd as <-; exact H.
    - split; [discriminate|]; intros (d' & Hd & _); discriminate Hd. }
  assert (ev : forall f t,
             isEventWithinRange event f t = true <->
             exists d, Event.startDate event = Some d /\ inRange d f t).
  { intros f t; unfold isEventWithinRange.
    destruct (Event.startDate event) as [d|]; cbv zeta.
    - rewrite withinDays_true; split.
      + intros H; exists d; split; [reflexivity | exact H].
      + intros (d' & Hd & H); injection Hd as <-; exact H.
    - split; [discriminate|]; intros (d' & Hd & _); discriminate Hd. }
  split; [apply hw|]; split; [apply ev|]; split.
  - rewrite hw; split; intros (d & Hd & H); exists d; split; auto;
      apply same; exact H.
  - rewrite ev; split; intros (d & Hd & H); exists d; split; auto;
      apply same; exact H.
Qed.

(** A homework due on 2024-03-10 is kept for March and left out for April;
    on a one-day range a record is kept at any time of that day and left out
    one second after it. *)
Example homework_range_examples :
  let homework := Ref.obj [("DueDate", Ref.str "2024-03-10")]%string in
  isHomeworkWithinRange Ref.engine homework
    (Ref.instant "2024-03-01") (Ref.instant "2024-03-31") = true
  /\ isHomeworkWithinRange Ref.engine homework
       (Ref.instant "2024-04-01") (Ref.instant "2024-04-30") = false
  /\ isHomeworkWithinRange Ref.engine
       (Ref.obj [("DueDate", Ref.str "2024-03-10T23:59:59Z")]%string)
       (Ref.instant "2024-03-10T08:00:00Z") (Ref.instant "2024-03-10T08:00:00Z")
     = true
  /\ isHomeworkWithinRange Ref.engine
       (Ref.obj [("DueDate", Ref.str "2024-03-11T00:00:00Z")]%string)
       (Ref.instant "2024-03-10T08:00:00Z") (Ref.instant "2024-03-10T08:00:00Z")
     = false.
Proof. repeat split; vm_compute; reflexivity. Qed.

(** ** Orderer *)

Section SortFacts.
Variable A : Type.
Variable cmp : A -> A -> Z.

Lemma insert_perm (x : A) (l : list A) :
  Permutation (insert cmp x l) (x :: l).
Proof.
  induction l as [|y l IH]; simpl; [reflexivity|].
  destruct (cmp x y <=? 0)%Z; [reflexivity|].
  rewrite IH; apply perm_swap.
Qed.




Hypothesis cmp_total : forall a b, (cmp a b <= 0 \/ cmp b a <= 0)%Z.
Hypothesis cmp_trans :
  forall a b c, (cmp a b <= 0 -> cmp b c <= 0 -> cmp a c <= 0)%Z.

Lemma insert_sorted (x : A) (l : list A) :
  StronglySorted (before cmp) l -> StronglySorted (before cmp) (insert cmp x l).
Proof.
  induction 1 as [|y l Hl IH Hy]; simpl.
  - repeat constructor.
  - destruct (cmp x y <=? 0)%Z eqn:Hxy.
    + apply Z.leb_le in Hxy.
      constructor; [constructor; assumption|].
      constructor; [exact Hxy|].
      eapply Forall_impl; [|exact Hy].
      intros z Hz; exact (cmp_trans Hxy Hz).
    + apply Z.leb_gt in Hxy.
      constructor; [exact IH|].
      apply Forall_forall; intros z Hz.
      apply (Permutation_in _ (insert_perm x l)) in Hz.
      destruct Hz as [<-|Hz].
      * destruct (cmp_total y x) as [H|H]; [exact H|unfold before; lia].
      * rewrite Forall_forall in Hy; apply Hy; exact Hz.
Qed.

Lemma sort_sorted (l : list A) : StronglySorted (before cmp) (sort cmp l).
Proof.
  induction l as [|x l IH]; simpl; [constructor|].
  apply insert_sorted; exact IH.
Qed.

End SortFacts.

Lemma StronglySorted_app_inv (A : Type) (R : A -> A -> Prop) (l1 l2 : list A) :
  StronglySorted R (l1 ++ l2) ->
  StronglySorted R l1 /\ StronglySorted R l2
  /\ forall a b, In a l1 -> In b l2 -> R a b.
Proof.
  induction l1 as [|x l1 IH]; simpl; intros H.
  - repeat split; [constructor | exact H | intros a b []].
  - inversion H as [|? ? Hs Hx]; subst.
    destruct (IH Hs) as (H1 & H2 & H12).
    rewrite Forall_app in Hx; destruct Hx as [Hx1 Hx2].
    repeat split; [constructor; assumption | exact H2 |].
    intros a b [<-|Ha] Hb.
    + rewrite Forall_forall in Hx2; apply Hx2; exact Hb.
    + apply H12; assumption.
Qed.

Lemma sort_byEditDateDesc_sorted (l : list Mark.t) :
  StronglySorted newerOrEqual (sort byEditDateDesc l).
Proof.
  assert (H : StronglySorted (before byEditDateDesc) (sort byEditDateDesc l)).
  { apply sort_sorted; unfold byEditDateDesc; intros; lia. }
  induction H as [|x s Hs IH Hx]; constructor; [exact IH|].
  eapply Forall_impl; [|exact Hx].
  unfold before, byEditDateDesc, newerOrEqual; intros; lia.
Qed.


(** ** RecordNormalizer: marks *)

Lemma pushMark_app (E : Engine) (subjectName : value) (acc : list Mark.t)
    (mark : value) :
  pushMark E subjectName acc mark = acc ++ pushMark E subjectName [] mark.
Proof.
  unfold pushMark.
  destruct (editDate E mark); [|rewrite app_nil_r; reflexivity].
  destruct (truthy (extractMarkValue E mark)); [reflexivity|].
  rewrite app_nil_r; reflexivity.
Qed.

Lemma fold_pushMark (E : Engine) (subjectName : value) (marks : list value)
    (acc : list Mark.t) :
  fold_left (pushMark E subjectName) marks acc
  = acc ++ flat_map (pushMark E subjectName []) marks.
Proof.
  revert acc; induction marks as [|m marks IH]; intros acc; simpl.
  - rewrite app_nil_r; reflexivity.
  - rewrite IH, (pushMark_app E subjectName acc m), app_assoc; reflexivity.
Qed.

Lemma forEachM_pushSubject (E : Engine) (subjects : list value)
    (acc : list Mark.t) :
  forallb hasMarksArray subjects = true ->
  forEachM (pushSubject E) subjects acc = Some (acc ++ validMarks E subjects).
Proof.
  revert acc; induction subjects as [|s subjects IH]; intros acc; simpl.
  - intros _; rewrite app_nil_r; reflexivity.
  - rewrite andb_true_iff; intros [Hs Hrest].
    unfold pushSubject, hasMarksArray, marksOf in *.
    destruct (asArray (s?."Marks" ?? s?."marks" ?? VArray [])) as [ms|];
      [|discriminate].
    rewrite IH by exact Hrest.
    rewrite fold_pushMark, app_assoc; reflexivity.
Qed.




Lemma collectMarks_inv (E : Engine) (subjects : value) (all : list Mark.t) :
  collectMarks E subjects = Some all ->
  exists ss, asArray subjects = Some ss
             /\ forallb hasMarksArray ss = true
             /\ all = validMarks E ss.
Proof.
  unfold collectMarks.
  destruct (asArray subjects) as [ss|]; [|discriminate].
  intros H; exists ss; split; [reflexivity|].
  assert (G : forall acc, forEachM (pushSubject E) ss acc = Some all ->
                          forallb hasMarksArray ss = true).
  { clear H; induction ss as [|s ss IH]; intros acc; simpl; [reflexivity|].
    unfold pushSubject at 1, hasMarksArray at 1, marksOf.
    destruct (asArray (s?."Marks" ?? s?."marks" ?? VArray [])); [|discriminate].
    simpl; apply IH. }
  pose proof (G _ H) as Hm; split; [exact Hm|].
  rewrite (forEachM_pushSubject E ss [] Hm) in H.
  injection H as <-; reflexivity.
Qed.

Lemma pushMark_dropped (E : Engine) (subjectName : value) (acc : list Mark.t)
    (mark : value) :
  truthy (extractMarkValue E mark) = false \/ editDate E mark = None ->
  pushMark E subjectName acc mark = acc.
Proof.
  unfold pushMark; intros [H|H]; rewrite H; [|reflexivity].
  destruct (editDate E mark); reflexivity.
Qed.

Lemma pushMark_kept (E : Engine) (subjectName : value) (mark : value) (m : Mark.t) :
  In m (pushMark E subjectName [] mark) ->
  truthy (extractMarkValue E mark) = true
  /\ exists t, editDate E mark = Some t
               /\ m = Mark.make subjectName (extractMarkValue E mark) t
                        (mark?."Caption" ?? mark?."Theme" ?? VString [])
                        (mark?."Theme" ?? VString []).
Proof.
  unfold pushMark.
  destruct (editDate E mark) as [t|]; [|intros []].
  destruct (truthy (extractMarkValue E mark)); [|intros []].
  simpl; intros [<-|[]]; split; [reflexivity|].
  exists t; split; reflexivity.
Qed.

(** C7 (as amended).  Every record emitted by mark normalisation comes from
    a nested raw mark whose resolved value is truthy and whose edit date
    resolved to a valid instant: its [markValue] is that value (so it is not
    undefined, null, false, zero or the empty string, and it is non-empty
    whenever it is a string) and its [editDate] is that instant.  A nested
    raw mark whose resolved value is falsy or whose edit date does not
    resolve leaves the accumulated list unchanged: it is dropped during
    normalisation. *)
Theorem C7_mark_normalization (E : Engine) (subjects : value)
    (all : list Mark.t) (m : Mark.t) :
  collectMarks E subjects = Some all ->
  In m all ->
  (exists mark,
      Mark.markValue m = extractMarkValue E mark
      /\ editDate E mark = Some (Mark.editDate m))
  /\ truthy (Mark.markValue m) = true
  /\ (forall s, Mark.markValue m = VString s -> s <> [])
  /\ (forall subjectName acc mark,
         truthy (extractMarkValue E mark) = false \/ editDate E mark = None ->
         pushMark E subjectName acc mark = acc).
Proof.
  intros Hc Hin.
  destruct (collectMarks_inv E subjects Hc) as (ss & _ & _ & ->).
  unfold validMarks in Hin.
  apply in_flat_map in Hin; destruct Hin as (s & _ & Hin).
  apply in_flat_map in Hin; destruct Hin as (mark & _ & Hin).
  apply pushMark_kept in Hin; destruct Hin as (Hv & t & Ht & ->); simpl.
  split; [exists mark; split; [reflexivity | exact Ht]|].
  split; [exact Hv|].
  split; [|intros; apply pushMark_dropped; assumption].
  intros s' Hs' ->; rewrite Hs' in Hv; discriminate Hv.
Qed.

Lemma C7_mark_normalization_witness :
  exists m,
    collectMarks Ref.engine (VArray Ref.fifteenMarks)
    = Some (m :: tl (validMarks Ref.engine Ref.fifteenMarks))
    /\ truthy (Mark.markValue m) = true
    /\ (forall s, Mark.markValue m = VString s -> s <> []).
Proof.
  exists (hd (Mark.make VNull VNull 0 VNull VNull)
            (validMarks Ref.engine Ref.fifteenMarks)).
  split; [reflexivity|].
  destruct (@C7_mark_normalization Ref.engine (VArray Ref.fifteenMarks)
              (validMarks Ref.engine Ref.fifteenMarks)
              (hd (Mark.make VNull VNull 0 VNull VNull)
                 (validMarks Ref.engine Ref.fifteenMarks))
              eq_refl (or_introl eq_refl))
    as (_ & Ht & Hs & _).
  split; assumption.
Defined.

(** C7 fails as stated.  A nested mark whose [MarkText] is the number 1 is
    emitted with that number as its [markValue], which is not a string. *)
Lemma C7_counterexample :
  exists m,
    collectMarks Ref.engine Ref.numericMarkPayload = Some [m]
    /\ Mark.markValue m = VNumber 1%Q
    /\ forall s, Mark.markValue m <> VString s.
Proof.
  eexists; split; [vm_compute; reflexivity|].
  split; [reflexivity|]; intros s; discriminate.
Qed.

(** ** RecordNormalizer: events *)





(** ** LineEncoder *)

Lemma mapiM_length (A B : Type) (f : nat -> A -> option B) (l : list A) :
  forall index ys, mapiM f index l = Some ys -> List.length ys = List.length l.
Proof.
  induction l as [|x l IH]; simpl; intros index ys H.
  - injection H as <-; reflexivity.
  - destruct (f index x) as [y|]; [|discriminate].
    destruct (mapiM f (S index) l) as [ys'|] eqn:Hl; [|discriminate].
    injection H as <-; simpl; rewrite (IH _ _ Hl); reflexivity.
Qed.

Lemma mapiM_nth (A B : Type) (f : nat -> A -> option B) (l : list A) :
  forall index ys k x,
    mapiM f index l = Some ys ->
    nth_error l k = Some x ->
    exists y, nth_error ys k = Some y /\ f (index + k) x = Some y.
Proof.
  induction l as [|x0 l IH]; simpl; intros index ys k x H Hk.
  - destruct k; discriminate Hk.
  - destruct (f index x0) as [y0|] eqn:H0; [|discriminate].
    destruct (mapiM f (S index) l) as [ys'|] eqn:Hl; [|discriminate].
    injection H as <-.
    destruct k as [|k]; simpl in *.
    + injection Hk as <-; exists y0; rewrite Nat.add_0_r; split; auto.
    + destruct (IH _ _ _ _ Hl Hk) as (y & Hy & Hf).
      exists y; split; [exact Hy|].
      rewrite <- Hf; f_equal; lia.
Qed.

Lemma encode_noMarksMessage :
  encodeURIComponent noMarksMessage
  = Some (lit "%C5%BD%C3%A1dn%C3%A9%20nov%C3%A9%20zn%C3%A1mky%20za%20vybran%C3%A9%20obdob%C3%AD.").
Proof. vm_compute; reflexivity. Qed.

Lemma encode_noHomeworksMessage :
  encodeURIComponent noHomeworksMessage
  = Some (lit "%C5%BD%C3%A1dn%C3%A9%20nadch%C3%A1zej%C3%ADc%C3%AD%20dom%C3%A1c%C3%AD%20%C3%BAkoly.").
Proof. vm_compute; reflexivity. Qed.

Lemma buildHomeworksQueryString_lines (E : Engine) (U : Util)
    (homeworks : list Homework.t) (generatedAt : Z)
    (linePrefix updatedParam result : jsstring) :
  homeworks <> [] ->
  buildHomeworksQueryString E U (ArgArray homeworks) generatedAt
    linePrefix updatedParam = Some result ->
  exists lines updated,
    mapiM (fun index homework =>
             encoded <- encodeURIComponent
                          (truncateLine (homeworkLine E U generatedAt homework)) ;;
             Some (linePrefix ++ lit "_" ++ decimal (index + 1)
                   ++ lit "=" ++ encoded))
      0 (firstn 10 homeworks) = Some lines
    /\ encodeURIComponent (formatDate U (Some generatedAt)) = Some updated
    /\ result = join (lit "&") (lines ++ [updatedParam ++ lit "=" ++ updated]).
Proof.
  intros Hne; unfold buildHomeworksQueryString.
  destruct homeworks as [|h hs]; [congruence|].
  match goal with
  | |- context [mapiM ?f 0 ?l] => destruct (mapiM f 0 l) as [lines|]
  end; [|discriminate].
  destruct (encodeURIComponent (formatDate U (Some generatedAt))) as [updated|];
    [|discriminate].
  intros H; injection H as <-.
  exists lines, updated; repeat split.
Qed.

(** C5.  In the encoded homework list, the line of the homework at
    position [k] is the key [linePrefix_(k+1)] followed by the
    percent-encoding of the rendered text, cut first when it is too long: a
    rendered text of more than 50 code units is replaced, before encoding,
    by its first 49 code units followed by three dots; a text of at most 50
    code units, and so one of exactly 50, is encoded as it is. *)
Theorem C5_homework_line_truncation (E : Engine) (U : Util)
    (homeworks : list Homework.t) (generatedAt : Z)
    (linePrefix updatedParam result : jsstring) (k : nat) (homework : Homework.t) :
  buildHomeworksQueryString E U (ArgArray homeworks) generatedAt
    linePrefix updatedParam = Some result ->
  nth_error (firstn 10 homeworks) k = Some homework ->
  exists lines updated encoded,
    result = join (lit "&") (lines ++ [updated])
    /\ nth_error lines k
       = Some (linePrefix ++ lit "_" ++ decimal (k + 1) ++ lit "=" ++ encoded)
    /\ (50 < List.length (homeworkLine E U generatedAt homework) ->
        encodeURIComponent
          (firstn 49 (homeworkLine E U generatedAt homework) ++ lit "...")
        = Some encoded)
    /\ (List.length (homeworkLine E U generatedAt homework) <= 50 ->
        encodeURIComponent (homeworkLine E U generatedAt homework) = Some encoded)
    /\ (List.length (homeworkLine E U generatedAt homework) = 50 ->
        encodeURIComponent (homeworkLine E U generatedAt homework) = Some encoded).
Proof.
  intros Hr Hk.
  assert (Hne : homeworks <> []) by (intros ->; destruct k; discriminate Hk).
  destruct (@buildHomeworksQueryString_lines E U homeworks generatedAt
              linePrefix updatedParam result Hne Hr)
    as (lines & updated & Hl & _ & ->).
  destruct (mapiM_nth _ _ _ _ Hl Hk) as (y & Hy & Hf); simpl in Hf.
  destruct (encodeURIComponent
              (truncateLine (homeworkLine E U generatedAt homework)))
    as [encoded|] eqn:Henc; [|discriminate].
  injection Hf as <-.
  exists lines, (updatedParam ++ lit "=" ++ updated), encoded.
  split; [reflexivity|]; split; [exact Hy|].
  unfold truncateLine, substring0 in Henc.
  destruct (Nat.ltb_spec 50
              (List.length (homeworkLine E U generatedAt homework))) as [Hlt|Hle].
  - split; [intros _; exact Henc|]; split; intros; lia.
  - split; [intros; lia|]; split; intros _; exact Henc.
Qed.

Lemma C5_homework_line_truncation_witness :
  List.length (homeworkLine Ref.engine Ref.util Ref.day Ref.longHomework) = 51
  /\ List.length (homeworkLine Ref.engine Ref.util Ref.day Ref.fiftyHomework) = 50
  /\ (exists lines updated encoded,
        Ref.returned
          (buildHomeworksQueryString Ref.engine Ref.util
             (ArgArray Ref.twoHomeworks) Ref.day
             (lit "homeworks_line") (lit "homeworks_updated"))
        = join (lit "&") (lines ++ [updated])
        /\ nth_error lines 0 = Some (lit "homeworks_line_1=" ++ encoded)
        /\ encodeURIComponent
             (firstn 49 (homeworkLine Ref.engine Ref.util Ref.day Ref.longHomework)
              ++ lit "...")
           = Some encoded)
  /\ (exists lines updated encoded,
        Ref.returned
          (buildHomeworksQueryString Ref.engine Ref.util
             (ArgArray Ref.twoHomeworks) Ref.day
             (lit "homeworks_line") (lit "homeworks_updated"))
        = join (lit "&") (lines ++ [updated])
        /\ nth_error lines 1 = Some (lit "homeworks_line_2=" ++ encoded)
        /\ encodeURIComponent
             (homeworkLine Ref.engine Ref.util Ref.day Ref.fiftyHomework)
           = Some encoded).
Proof.
  split; [reflexivity|]; split; [reflexivity|]; split.
  - destruct (@C5_homework_line_truncation Ref.engine Ref.util
                Ref.twoHomeworks Ref.day
                (lit "homeworks_line") (lit "homeworks_updated") _
                0 Ref.longHomework eq_refl eq_refl)
      as (lines & updated & encoded & Hr & Hk & Hlong & _).
    exists lines, updated, encoded.
    split; [exact Hr|]; split; [exact Hk|].
    apply Hlong; vm_compute; lia.
  - destruct (@C5_homework_line_truncation Ref.engine Ref.util
                Ref.twoHomeworks Ref.day
                (lit "homeworks_line") (lit "homeworks_updated") _
                1 Ref.fiftyHomework eq_refl eq_refl)
      as (lines & updated & encoded & Hr & Hk & _ & _ & Hfifty).
    exists lines, updated, encoded.
    split; [exact Hr|]; split; [exact Hk|].
    apply Hfifty; reflexivity.
Defined.

Lemma fetchSubjectMarks_sorted (E : Engine) (fromDate toDate : Z) (data : value)
    (marks : list Mark.t) :
  fetchSubjectMarks E fromDate toDate data = Some marks ->
  StronglySorted newerOrEqual marks.
Proof.
  unfold fetchSubjectMarks.
  destruct (collectMarks E _) as [all|]; [|discriminate].
  intros H; injection H as <-.
  pose proof (sort_byEditDateDesc_sorted all) as Hs.
  rewrite <- (firstn_skipn 10 (sort byEditDateDesc all)) in Hs.
  apply StronglySorted_app_inv in Hs; tauto.
Qed.

Lemma buildMarksQueryString_lines (E : Engine) (U : Util) (today : Z)
    (mark0 : Mark.t) (marks : list Mark.t)
    (linePrefix updatedParam result : jsstring) :
  buildMarksQueryString E U today (ArgArray (mark0 :: marks))
    linePrefix updatedParam = Some result ->
  exists lines updated,
    List.length lines = List.length (mark0 :: marks)
    /\ encodeURIComponent (formatDate U (Some (Mark.editDate mark0))) = Some updated
    /\ result = join (lit "&") (lines ++ [updatedParam ++ lit "=" ++ updated]).
Proof.
  unfold buildMarksQueryString.
  match goal with
  | |- context [mapiM ?f 0 ?l] => destruct (mapiM f 0 l) as [lines|] eqn:Hl
  end; [|discriminate].
  destruct (encodeURIComponent (formatDate U (Some (Mark.editDate mark0))))
    as [updated|]; [|discriminate].
  intros H; injection H as <-.
  exists lines, updated; split; [|split; reflexivity].
  apply (mapiM_length _ _ _ Hl).
Qed.

(** C6.  For a non-empty record list the last of the joined lines is the
    metadata line [updatedParam=...].  In the mark pipeline, where the
    encoder receives the output of [fetchSubjectMarks], its timestamp is the
    formatted edit date of a mark of the list that no other mark of the list
    exceeds: the newest one.  In the homework encoder it is the formatted
    generation time handed to the encoder, whatever the records hold. *)
Theorem C6_metadata_timestamp (E : Engine) (U : Util)
    (linePrefix updatedParam : jsstring) :
  (forall data fromDate toDate today marks result,
      fetchSubjectMarks E fromDate toDate data = Some marks ->
      marks <> [] ->
      buildMarksQueryString E U today (ArgArray marks) linePrefix updatedParam
      = Some result ->
      exists lines newest updated,
        In newest marks
        /\ Forall (fun mark => (Mark.editDate mark <= Mark.editDate newest)%Z) marks
        /\ encodeURIComponent (formatDate U (Some (Mark.editDate newest)))
           = Some updated
        /\ List.length lines = List.length marks
        /\ result = join (lit "&") (lines ++ [updatedParam ++ lit "=" ++ updated]))
  /\ (forall homeworks generatedAt result,
        homeworks <> [] ->
        buildHomeworksQueryString E U (ArgArray homeworks) generatedAt
          linePrefix updatedParam = Some result ->
        exists lines updated,
          encodeURIComponent (formatDate U (Some generatedAt)) = Some updated
          /\ List.length lines = List.length (firstn 10 homeworks)
          /\ result = join (lit "&") (lines ++ [updatedParam ++ lit "=" ++ updated])).
Proof.
  split.
  - intros data fromDate toDate today marks result Hf Hne Hb.
    apply fetchSubjectMarks_sorted in Hf.
    destruct marks as [|mark0 marks]; [congruence|].
    destruct (buildMarksQueryString_lines _ _ _ _ _ _ _ Hb)
      as (lines & updated & Hlen & Hu & ->).
    exists lines, mark0, updated.
    split; [left; reflexivity|]; split; [|auto].
    inversion Hf as [|? ? _ Hall]; subst.
    constructor; [lia|exact Hall].
  - intros homeworks generatedAt result Hne Hb.
    destruct (@buildHomeworksQueryString_lines E U homeworks generatedAt
                linePrefix updatedParam result Hne Hb)
      as (lines & updated & Hl & Hu & ->).
    exists lines, updated; split; [exact Hu|]; split; [|reflexivity].
    apply (mapiM_length _ _ _ Hl).
Qed.

Lemma C6_metadata_timestamp_witness :
  (exists lines newest updated,
      In newest (Ref.returned (fetchSubjectMarks Ref.engine 0 0 Ref.marksPayload))
      /\ Forall (fun mark => (Mark.editDate mark <= Mark.editDate newest)%Z)
           (Ref.returned (fetchSubjectMarks Ref.engine 0 0 Ref.marksPayload))
      /\ encodeURIComponent (Ref.longDate (Some (Mark.editDate newest)))
         = Some updated
      /\ List.length lines = 10
      /\ Ref.returned
           (marksSync Ref.engine Ref.util 0 0 Ref.day Ref.marksPayload
              (lit "grades_line") (lit "grades_updated"))
         = join (lit "&") (lines ++ [lit "grades_updated=" ++ updated]))
  /\ (exists lines,
        List.length lines = 2
        /\ Ref.returned
             (buildHomeworksQueryString Ref.engine Ref.util
                (ArgArray Ref.twoHomeworks) (Ref.day - msPerDay)
                (lit "homeworks_line") (lit "homeworks_updated"))
           = join (lit "&") (lines ++ [lit "homeworks_updated=9.%203.%202024"])).
Proof.
  destruct (C6_metadata_timestamp Ref.engine Ref.util
              (lit "grades_line") (lit "grades_updated")) as [Hmarks _].
  destruct (C6_metadata_timestamp Ref.engine Ref.util
              (lit "homeworks_line") (lit "homeworks_updated")) as [_ Hhw].
  split.
  - destruct (Hmarks Ref.marksPayload 0%Z 0%Z Ref.day
                (Ref.returned (fetchSubjectMarks Ref.engine 0 0 Ref.marksPayload))
                (Ref.returned
                   (marksSync Ref.engine Ref.util 0 0 Ref.day Ref.marksPayload
                      (lit "grades_line") (lit "grades_updated"))))
      as (lines & newest & updated & H1 & H2 & H3 & H4 & H5);
      [reflexivity | discriminate | reflexivity |].
    exists lines, newest, updated; repeat split; assumption.
  - destruct (Hhw Ref.twoHomeworks (Ref.day - msPerDay)%Z
                (Ref.returned
                   (buildHomeworksQueryString Ref.engine Ref.util
                      (ArgArray Ref.twoHomeworks) (Ref.day - msPerDay)
                      (lit "homeworks_line") (lit "homeworks_updated"))))
      as (lines & updated & H1 & H2 & H3);
      [discriminate | reflexivity |].
    exists lines; split; [exact H2|].
    vm_compute in H1; injection H1 as <-; exact H3.
Defined.

(** ** Pipelines on degenerate input *)

(** C9.  When the container array of the payload is missing altogether
    (neither spelling of its key is present), the record list is empty and
    nothing is raised: the marks and the homework pipelines return the two
    lines of the "no items" encoding, [linePrefix_1] with the
    percent-encoded message and the metadata line with the encoded formatted
    date, joined by an ampersand; the event pipeline, which ends at the
    record list, returns the empty list. *)
Theorem C9_missing_container (E : Engine) (U : Util) (data : value)
    (now fromDate toDate today : Z) (linePrefix updatedParam updated : jsstring) :
  (data?."Subjects" = VUndefined -> data?."subjects" = VUndefined ->
   encodeURIComponent (formatDate U (Some today)) = Some updated ->
   fetchSubjectMarks E fromDate now data = Some []
   /\ marksSync E U now fromDate today data linePrefix updatedParam
      = Some (join (lit "&")
                [linePrefix ++ lit "_1="
                 ++ lit "%C5%BD%C3%A1dn%C3%A9%20nov%C3%A9%20zn%C3%A1mky%20za%20vybran%C3%A9%20obdob%C3%AD.";
                 updatedParam ++ lit "=" ++ updated]))
  /\ (data?."Homeworks" = VUndefined -> data?."homeworks" = VUndefined ->
      encodeURIComponent (formatDate U (Some now)) = Some updated ->
      fetchHomeworks E (startOfUtcDay now) toDate data = Some []
      /\ homeworksSync E U now toDate data linePrefix updatedParam
         = Some (join (lit "&")
                   [linePrefix ++ lit "_1="
                    ++ lit "%C5%BD%C3%A1dn%C3%A9%20nadch%C3%A1zej%C3%ADc%C3%AD%20dom%C3%A1c%C3%AD%20%C3%BAkoly.";
                    updatedParam ++ lit "=" ++ updated]))
  /\ (data?."Events" = VUndefined -> data?."events" = VUndefined ->
      fetchEvents E fromDate toDate data = Some []).
Proof.
  split; [|split].
  - intros H1 H2 Hu.
    assert (Hf : fetchSubjectMarks E fromDate now data = Some []).
    { unfold fetchSubjectMarks; rewrite H1, H2; reflexivity. }
    split; [exact Hf|].
    unfold marksSync; rewrite Hf; unfold buildMarksQueryString.
    rewrite encode_noMarksMessage, Hu; reflexivity.
  - intros H1 H2 Hu.
    assert (Hf : fetchHomeworks E (startOfUtcDay now) toDate data = Some []).
    { unfold fetchHomeworks; rewrite H1, H2; reflexivity. }
    split; [exact Hf|].
    unfold homeworksSync; rewrite Hf; unfold buildHomeworksQueryString.
    rewrite encode_noHomeworksMessage, Hu; reflexivity.
  - intros H1 H2; unfold fetchEvents; rewrite H1, H2; reflexivity.
Qed.

Lemma C9_missing_container_witness :
  marksSync Ref.engine Ref.util Ref.day (Ref.day - 30 * msPerDay) Ref.day
    (Ref.obj [("status", Ref.str "ok")]%string)
    (lit "grades_line") (lit "grades_updated")
  = Some (lit "grades_line_1=%C5%BD%C3%A1dn%C3%A9%20nov%C3%A9%20zn%C3%A1mky%20za%20vybran%C3%A9%20obdob%C3%AD.&grades_updated=10.%203.%202024")
  /\ homeworksSync Ref.engine Ref.util Ref.day (Ref.day + 30 * msPerDay)
       (Ref.obj [("status", Ref.str "ok")]%string)
       (lit "homeworks_line") (lit "homeworks_updated")
     = Some (lit "homeworks_line_1=%C5%BD%C3%A1dn%C3%A9%20nadch%C3%A1zej%C3%ADc%C3%AD%20dom%C3%A1c%C3%AD%20%C3%BAkoly.&homeworks_updated=10.%203.%202024")
  /\ fetchEvents Ref.engine Ref.day Ref.day (Ref.obj [("status", Ref.str "ok")]%string)
     = Some [].
Proof.
  destruct (C9_missing_container Ref.engine Ref.util
              (Ref.obj [("status", Ref.str "ok")]%string)
              Ref.day (Ref.day - 30 * msPerDay) (Ref.day + 30 * msPerDay) Ref.day
              (lit "grades_line") (lit "grades_updated")
              (lit "10.%203.%202024")) as (Hm & _ & He).
  destruct (C9_missing_container Ref.engine Ref.util
              (Ref.obj [("status", Ref.str "ok")]%string)
              Ref.day (Ref.day - 30 * msPerDay) (Ref.day + 30 * msPerDay) Ref.day
              (lit "homeworks_line") (lit "homeworks_updated")
              (lit "10.%203.%202024")) as (_ & Hh & _).
  split; [apply Hm; reflexivity|].
  split; [apply Hh; reflexivity|].
  exact (He eq_refl eq_refl).
Defined.



(** * Further properties of the sources *)

(** ** Trimmed text *)

Lemma trimStart_split (s : jsstring) :
  exists ws, s = ws ++ trimStart s /\ forallb isWhiteSpace ws = true.
Proof.
  induction s as [|c s (ws & Hs & Hw)]; simpl.
  - exists []; split; reflexivity.
  - destruct (isWhiteSpace c) eqn:Hc.
    + exists (c :: ws); simpl; rewrite Hc, Hw; split; [|reflexivity].
      f_equal; exact Hs.
    + exists []; split; reflexivity.
Qed.

Lemma trimStart_idempotent (s : jsstring) :
  trimStart (trimStart s) = trimStart s.
Proof.
  destruct (trimStart s) as [|c r] eqn:Hs; [reflexivity|].
  apply trimStart_head in Hs; simpl; rewrite Hs; reflexivity.
Qed.

Lemma trim_trimmedString (s : jsstring) : trimmedString (trim s).
Proof.
  unfold trimmedString, trim, trimEnd; split.
  - destruct (trimStart_split (rev (trimStart s))) as (ws & Hs & _).
    apply (f_equal (@rev N)) in Hs.
    rewrite rev_involutive, rev_app_distr in Hs.
    destruct (rev (trimStart (rev (trimStart s)))) as [|c r] eqn:Hr;
      [reflexivity|].
    simpl in Hs; apply trimStart_head in Hs.
    simpl; rewrite Hs; reflexivity.
  - rewrite rev_involutive; apply trimStart_idempotent.
Qed.

Lemma trimmedString_trim (s : jsstring) : trimmedString s -> trim s = s.
Proof.
  unfold trimmedString, trim, trimEnd; intros [H1 H2].
  rewrite H1, H2; apply rev_involutive.
Qed.

Lemma trimmed_nonBlank (v : value) :
  isNonBlankString v = true -> trimmed v <> [] /\ trimmedString (trimmed v).
Proof.
  destruct v as [| |b|q|s|items|props]; simpl; try discriminate.
  intros H; split; [|apply trim_trimmedString].
  intros Hn; rewrite Hn in H; discriminate.
Qed.

Lemma findNonBlank_trimmedString (candidates : list value) (fallback : jsstring) :
  trimmedString fallback -> trimmedString (findNonBlank candidates fallback).
Proof.
  intros Hf; unfold findNonBlank.
  destruct (find isNonBlankString candidates) as [v|] eqn:Hv; [|exact Hf].
  apply find_some in Hv; apply trimmed_nonBlank; tauto.
Qed.

(** X1.  The texts the normalisers extract (homework content, event title,
    description and type) carry no white space at either end, so trimming
    them again changes nothing; and the title of an event is never empty. *)
Theorem extracted_texts_are_trimmed (record : value) :
  trim (extractHomeworkContent record) = extractHomeworkContent record
  /\ trim (extractEventTitle record) = extractEventTitle record
  /\ trim (extractEventDescription record) = extractEventDescription record
  /\ trim (extractEventType record) = extractEventType record
  /\ extractEventTitle record <> [].
Proof.
  assert (Hnil : trimmedString []) by (split; reflexivity).
  assert (Hlabel : trimmedString (lit "Neznámá událost"))
    by (split; vm_compute; reflexivity).
  repeat split; try apply trimmedString_trim.
  - apply findNonBlank_trimmedString; exact Hnil.
  - apply findNonBlank_trimmedString; exact Hlabel.
  - apply findNonBlank_trimmedString; exact Hnil.
  - unfold extractEventType.
    repeat match goal with
           | |- context [isNonBlankString ?v] =>
               destruct (isNonBlankString v) eqn:?;
               [apply trimmed_nonBlank; assumption|]
           end.
    exact Hnil.
  - unfold extractEventTitle, findNonBlank.
    destruct (find isNonBlankString _) as [v|] eqn:Hv.
    + apply find_some in Hv; apply trimmed_nonBlank; tauto.
    + vm_compute; discriminate.
Qed.

(** ** Chains of [??] *)

Lemma firstPresent_first (before after : list value) (c : value) :
  Forall (fun v => nullish v = true) before ->
  nullish c = false ->
  firstPresent (before ++ c :: after) = c.
Proof.
  intros Hb Hc; induction Hb as [|v before Hv _ IH]; simpl.
  - destruct after; [reflexivity|].
    unfold coalesce; rewrite Hc; reflexivity.
  - destruct (before ++ c :: after) eqn:Hl.
    + destruct before; discriminate Hl.
    + unfold coalesce; rewrite Hv; exact IH.
Qed.

Lemma firstPresent_nullish (candidates : list value) :
  nullish (firstPresent candidates) = true ->
  Forall (fun v => nullish v = true) candidates.
Proof.
  induction candidates as [|c l IH]; simpl; [constructor|].
  destruct l as [|d l].
  - intros H; constructor; [exact H|constructor].
  - unfold coalesce; destruct (nullish c) eqn:Hc.
    + intros H; constructor; [exact Hc | apply IH; exact H].
    + intros H; congruence.
Qed.

Lemma coalesce_present (a b : value) :
  nullish b = false -> nullish (a ?? b) = false.
Proof.
  unfold coalesce; destruct (nullish a) eqn:Ha; [tauto | intros _; exact Ha].
Qed.

(** X2.  The subject name is never null or undefined.  It is the first of
    [Subject.Abbrev], [Subject.Name], [Name] and [Abbrev] that is present,
    taken as it is (an empty or non-string value is not passed over), and
    the label 'Neznámý předmět' exactly when all four are missing. *)
Theorem extractSubjectName_present (subject : value) :
  let candidates :=
    [subject?."Subject"?."Abbrev"; subject?."Subject"?."Name";
     subject?."Name"; subject?."Abbrev"]%string in
  nullish (extractSubjectName subject) = false
  /\ (forall before c after,
        candidates = before ++ c :: after ->
        Forall (fun v => nullish v = true) before ->
        nullish c = false ->
        extractSubjectName subject = c)
  /\ (Forall (fun v => nullish v = true) candidates ->
      extractSubjectName subject = VString (lit "Neznámý předmět")).
Proof.
  intros candidates.
  assert (Hchain : extractSubjectName subject
                   = firstPresent (candidates ++ [VString (lit "Neznámý předmět")]))
    by reflexivity.
  split; [|split].
  - destruct (nullish (extractSubjectName subject)) eqn:Hn; [|reflexivity].
    rewrite Hchain in Hn; apply firstPresent_nullish in Hn.
    apply Forall_app in Hn; destruct Hn as [_ Hn].
    inversion Hn as [|? ? Hd _]; discriminate Hd.
  - intros before c after Hc Hb Hn.
    rewrite Hchain, Hc, <- app_assoc; simpl.
    apply firstPresent_first; assumption.
  - intros Hall; rewrite Hchain.
    exact (@firstPresent_first candidates []
             (VString (lit "Neznámý předmět")) Hall eq_refl).
Qed.

(** X3.  The value of a mark is never null or undefined.  When none of the
    text fields [MarkText], [Text], [Caption] and [ValueText] is present it
    is always a string: the stringified [Value] if the record has that key
    at all (a null [Value] is stringified too, not passed over), else the
    stringified [Mark], else the empty string. *)
Theorem extractMarkValue_present (E : Engine) (mark : value) :
  nullish (extractMarkValue E mark) = false
  /\ (Forall (fun v => nullish v = true)
        [mark?."MarkText"; mark?."Text"; mark?."Caption"; mark?."ValueText"]%string ->
      (mark?."Value" <> VUndefined ->
       extractMarkValue E mark = VString (ToString E (mark?."Value")))
      /\ (mark?."Value" = VUndefined -> mark?."Mark" <> VUndefined ->
          extractMarkValue E mark = VString (ToString E (mark?."Mark")))
      /\ (mark?."Value" = VUndefined -> mark?."Mark" = VUndefined ->
          extractMarkValue E mark = VString [])).
Proof.
  split.
  - unfold extractMarkValue.
    repeat apply coalesce_present; reflexivity.
  - intros Hall.
    inversion Hall as [|? ? H1 Hall1]; subst.
    inversion Hall1 as [|? ? H2 Hall2]; subst.
    inversion Hall2 as [|? ? H3 Hall3]; subst.
    inversion Hall3 as [|? ? H4 _]; subst.
    unfold extractMarkValue, coalesce; rewrite H1, H2, H3, H4.
    repeat split.
    + intros Hv; destruct (mark?."Value"); try reflexivity; congruence.
    + intros Hv Hm; rewrite Hv; simpl.
      destruct (mark?."Mark"); try reflexivity; congruence.
    + intros Hv Hm; rewrite Hv, Hm; reflexivity.
Qed.

Lemma extractMarkValue_present_witness :
  extractMarkValue Ref.engine (Ref.obj [("Value", VNull)]%string)
  = VString (lit "null")
  /\ extractMarkValue Ref.engine (Ref.obj [("Mark", VNumber 3%Q)]%string)
     = VString (lit "3").
Proof.
  destruct (extractMarkValue_present Ref.engine (Ref.obj [("Value", VNull)]%string))
    as [_ H1].
  destruct (extractMarkValue_present Ref.engine (Ref.obj [("Mark", VNumber 3%Q)]%string))
    as [_ H2].
  split.
  - apply H1; [repeat constructor | discriminate].
  - apply H2; [repeat constructor | reflexivity | discriminate].
Defined.

(** ** The unused mark filter *)

Lemma between_inRange (d fromDate toDate : Z) :
  (fromDate <= d <= toDate)%Z -> inRange d fromDate toDate.
Proof.
  intros [Hf Ht]; unfold inRange, dayFloor.
  pose proof (proj2 (startOfUtcDay_le fromDate d)) as H1.
  pose proof (proj2 (startOfUtcDay_le d toDate)) as H2.
  assert (0 < msPerDay)%Z by (unfold msPerDay; lia).
  split.
  - apply Z.le_ge, H1, Z.div_le_mono; assumption.
  - apply H2, Z.div_le_mono; assumption.
Qed.

(** X4.  [isMarkWithinRange] compares instants, not days: it holds exactly
    when the first present field among [MarkDate], [Date], [Created] and
    [CreatedDate] is truthy and parses to an instant between [fromDate] and
    [toDate], ends included.  Such a mark lies within the day range as well.
    The field [EditDate], on which the pipeline sorts, plays no part: a mark
    with none of the four fields is outside every range. *)
Theorem isMarkWithinRange_instants (E : Engine) (mark : value)
    (fromDate toDate : Z) :
  let dateString :=
    firstPresent
      [mark?."MarkDate"; mark?."Date"; mark?."Created"; mark?."CreatedDate"]%string in
  (isMarkWithinRange E mark fromDate toDate = true <->
   exists markDate,
     truthy dateString = true /\ Date_new E dateString = Some markDate
     /\ (fromDate <= markDate <= toDate)%Z)
  /\ (isMarkWithinRange E mark fromDate toDate = true ->
      exists markDate,
        Date_new E dateString = Some markDate
        /\ inRange markDate fromDate toDate)
  /\ (Forall (fun v => nullish v = true)
        [mark?."MarkDate"; mark?."Date"; mark?."Created"; mark?."CreatedDate"]%string ->
      isMarkWithinRange E mark fromDate toDate = false).
Proof.
  intros dateString.
  assert (Hiff : isMarkWithinRange E mark fromDate toDate = true <->
                 exists markDate,
                   truthy dateString = true /\ Date_new E dateString = Some markDate
                   /\ (fromDate <= markDate <= toDate)%Z).
  { unfold isMarkWithinRange; fold dateString; cbv zeta.
    change (mark?."MarkDate" ?? mark?."Date" ?? mark?."Created"
            ?? mark?."CreatedDate") with dateString.
    destruct (truthy dateString); simpl.
    - destruct (Date_new E dateString) as [d|].
      + rewrite andb_true_iff, Z.geb_le, Z.leb_le; split.
        * intros H; exists d; repeat split; tauto.
        * intros (d' & _ & Hd & H); injection Hd as <-; tauto.
      + split; [discriminate|]; intros (d' & _ & Hd & _); discriminate Hd.
    - split; [discriminate|]; intros (d' & Hd & _); discriminate Hd. }
  split; [exact Hiff|]; split.
  - intros H; apply Hiff in H; destruct H as (d & _ & Hd & Hb).
    exists d; split; [exact Hd | apply between_inRange; exact Hb].
  - intros Hall.
    apply not_true_is_false; intros H.
    apply Hiff in H; destruct H as (d & Ht & _).
    assert (Hn : nullish dateString = true).
    { inversion Hall as [|? ? H1 Hall1]; subst.
      inversion Hall1 as [|? ? H2 Hall2]; subst.
      inversion Hall2 as [|? ? H3 Hall3]; subst.
      inversion Hall3 as [|? ? H4 _]; subst.
      unfold dateString; simpl; unfold coalesce; rewrite H1, H2, H3; exact H4. }
    destruct dateString; discriminate.
Qed.

(** ** RecordNormalizer: homework *)










(** ** RecordNormalizer: events *)




(** ** Ties in the mark order *)



(** ** Configuration *)

Lemma stripTrailingSlash_cases (s : jsstring) :
  (exists r, s = r ++ [47%N] /\ stripTrailingSlash s = r)
  \/ ((forall r, s <> r ++ [47%N]) /\ stripTrailingSlash s = s).
Proof.
  unfold stripTrailingSlash.
  destruct (rev s) as [|c l] eqn:Hr.
  - right; split; [|reflexivity].
    intros r Hs; rewrite Hs, rev_app_distr in Hr; discriminate Hr.
  - apply (f_equal (@rev N)) in Hr; rewrite rev_involutive in Hr; simpl in Hr.
    destruct (N.eqb_spec c 47) as [->|Hc].
    + left; exists (rev l); split; [exact Hr | reflexivity].
    + right; split; [|reflexivity].
      intros r Hs; rewrite Hs in Hr.
      apply app_inj_tail in Hr; destruct Hr as [_ Hr]; congruence.
Qed.

Lemma isNonBlankString_iff (v : value) :
  isNonBlankString v = true <-> exists s, v = VString s /\ trim s <> [].
Proof.
  split.
  - destruct v as [| |b|q|s|items|props]; simpl; try discriminate.
    intros H; exists s; split; [reflexivity|].
    intros Hn; rewrite Hn in H; discriminate.
  - intros (s & -> & Hs); simpl.
    destruct (trim s); [congruence | reflexivity].
Qed.

Lemma isNonBlankString_false_iff (v : value) :
  isNonBlankString v = false <-> forall s, v = VString s -> trim s = [].
Proof.
  rewrite isNonBlankString_false; unfold skipped.
  split; intros H s Hs; [apply trim_nil | apply trim_nil]; apply H; exact Hs.
Qed.

Ltac config_cases :=
  repeat match goal with
         | H : exists _, _ |- _ => destruct H
         | H : _ /\ _ |- _ => destruct H
         | H : _ \/ _ |- _ => destruct H
         | Hf : (forall s, ?v = VString s -> trim s = []), H : ?v = VString _ |- _ =>
             apply Hf in H
         end;
  subst; try discriminate; try congruence; try tauto.

(** X9.  [normalizeConfig] returns a configuration exactly when [baseUrl],
    [username] and [password] are all strings with content; the result
    holds their trimmed values, the base URL without one final slash.  It
    raises TypeError exactly on null or undefined, and the missing base URL
    error exactly when the base URL is not a string with content, whatever
    the credentials are: that error goes before the one on credentials. *)
Theorem normalizeConfig_result (config : value) :
  (forall c,
      normalizeConfig config = inr c <->
      exists b u p,
        config?."baseUrl" = VString b /\ config?."username" = VString u
        /\ config?."password" = VString p
        /\ trim b <> [] /\ trim u <> [] /\ trim p <> []
        /\ c = Config.make (stripTrailingSlash (trim b)) (trim u) (trim p))
  /\ (normalizeConfig config = inl TypeError <-> nullish config = true)
  /\ (normalizeConfig config = inl MissingBaseUrl <->
      nullish config = false /\ isNonBlankString (config?."baseUrl") = false)
  /\ (normalizeConfig config = inl MissingCredentials <->
      isNonBlankString (config?."baseUrl") = true
      /\ (isNonBlankString (config?."username") = false
          \/ isNonBlankString (config?."password") = false)).
Proof.
  unfold normalizeConfig.
  destruct (nullish config) eqn:Hn.
  { assert (Hg : forall k, config?.k = VUndefined)
      by (intros k; destruct config; try discriminate Hn; reflexivity).
    repeat split; intros; config_cases.
    all: rewrite Hg in *; config_cases. }
  cbv zeta.
  destruct (isNonBlankString (config?."baseUrl")) eqn:Hb; simpl.
  2:{ pose proof (proj1 (isNonBlankString_false_iff _) Hb).
      repeat split; intros; config_cases. }
  destruct (isNonBlankString (config?."username")) eqn:Hu; simpl.
  2:{ pose proof (proj1 (isNonBlankString_false_iff _) Hu).
      repeat split; intros; config_cases. }
  destruct (isNonBlankString (config?."password")) eqn:Hp; simpl.
  2:{ pose proof (proj1 (isNonBlankString_false_iff _) Hp).
      repeat split; intros; config_cases. }
  apply isNonBlankString_iff in Hb, Hu, Hp.
  destruct Hb as (b & Hb & Hb'), Hu as (u & Hu & Hu'), Hp as (p & Hp & Hp').
  rewrite Hb, Hu, Hp; simpl.
  repeat split; intros; config_cases.
  match goal with H : inr _ = inr _ |- _ => injection H as <- end.
  exists b, u, p; repeat split; assumption.
Qed.

(** X10.  In a configuration that [normalizeConfig] returns, user name and
    password are non-empty and carry no white space at either end.  The base
    URL is the trimmed input, or the trimmed input with one final slash
    removed, and then the rest may still end in a slash; it is empty exactly
    when the trimmed input is the single slash. *)
Theorem normalizeConfig_shape (config : value) (c : Config.t) :
  normalizeConfig config = inr c ->
  Config.username c <> [] /\ trim (Config.username c) = Config.username c
  /\ Config.password c <> [] /\ trim (Config.password c) = Config.password c
  /\ exists b,
       config?."baseUrl" = VString b
       /\ (trim b = Config.baseUrl c ++ [47%N]
           \/ (trim b = Config.baseUrl c /\ forall r, trim b <> r ++ [47%N]))
       /\ (Config.baseUrl c = [] <-> trim b = [47%N]).
Proof.
  intros H.
  apply (proj1 (normalizeConfig_result config)) in H.
  destruct H as (b & u & p & Hb & _ & _ & Hb' & Hu' & Hp' & ->); simpl.
  split; [exact Hu'|].
  split; [apply trimmedString_trim, trim_trimmedString|].
  split; [exact Hp'|].
  split; [apply trimmedString_trim, trim_trimmedString|].
  exists b; split; [exact Hb|].
  destruct (stripTrailingSlash_cases (trim b)) as [(r & Hr & ->)|(Hr & ->)].
  - split; [left; exact Hr|].
    split; [intros ->; exact Hr|].
    intros Hs; rewrite Hs in Hr.
    destruct r as [|x r]; [reflexivity|].
    destruct r; discriminate Hr.
  - split; [right; split; [reflexivity | exact Hr]|].
    split; [intros Hs; congruence|].
    intros Hs; exfalso; apply (Hr []); exact Hs.
Qed.

Lemma normalizeConfig_shape_witness :
  exists c,
    normalizeConfig
      (Ref.obj [("baseUrl", Ref.str " https://skola.example/ ");
                ("username", Ref.str "zak "); ("password", Ref.str "heslo")]%string)
    = inr c
    /\ Config.baseUrl c = lit "https://skola.example"
    /\ Config.username c <> [] /\ trim (Config.username c) = Config.username c.
Proof.
  eexists; split; [reflexivity|]; split; [reflexivity|].
  destruct (@normalizeConfig_shape
              (Ref.obj [("baseUrl", Ref.str " https://skola.example/ ");
                        ("username", Ref.str "zak "); ("password", Ref.str "heslo")]%string)
              _ eq_refl) as (H1 & H2 & _).
  split; assumption.
Defined.

(** ** Command-line values *)

(** X11.  [resolveWithDefault] returns either the fallback or a non-empty
    string without white space at its ends.  A named option that is present
    decides alone: the positional argument is not looked at, and when the
    named option is blank or not a string the result is the fallback.
    Without the named option the positional argument decides in the same
    way, and an index beyond the positional arguments gives the fallback. *)
Theorem resolveWithDefault_result (values : value) (positionals : list value)
    (name : string) (index : nat) (fallback : jsstring) :
  let result := resolveWithDefault values positionals name index fallback in
  (result = fallback \/ (result <> [] /\ trim result = result))
  /\ (nullish (values?.name) = false ->
      result = if isNonBlankString (values?.name)
               then trimmed (values?.name) else fallback)
  /\ (nullish (values?.name) = true ->
      result = if isNonBlankString (nth index positionals VUndefined)
               then trimmed (nth index positionals VUndefined) else fallback)
  /\ (nullish (values?.name) = true -> List.length positionals <= index ->
      result = fallback).
Proof.
  intros result; unfold result, resolveWithDefault, resolveValue, coalesce.
  split; [|split; [|split]].
  - destruct (isNonBlankString _) eqn:Hc; [right|left; reflexivity].
    apply trimmed_nonBlank in Hc; destruct Hc as [Hne Ht].
    split; [exact Hne | apply trimmedString_trim; exact Ht].
  - intros ->; reflexivity.
  - intros ->; reflexivity.
  - intros -> Hlen; rewrite (nth_overflow _ _ Hlen); reflexivity.
Qed.

(** ** Line length *)

(** X12.  A line is cut only when it is longer than 50 code units, and the
    cut line is its first 49 code units and three dots: 52 code units, two
    more than the threshold.  No encoded homework text is made of more than
    52 code units. *)
Theorem truncateLine_length (line : jsstring) :
  (List.length line <= 50 -> truncateLine line = line)
  /\ (50 < List.length line ->
      List.length (truncateLine line) = 52
      /\ firstn 49 (truncateLine line) = firstn 49 line)
  /\ List.length (truncateLine line) <= 52.
Proof.
  unfold truncateLine, substring0.
  destruct (Nat.ltb_spec 50 (List.length line)) as [Hlt|Hle].
  - assert (Hlen : List.length (firstn 49 line ++ lit "...") = 52).
    { rewrite length_app, length_firstn.
      change (List.length (lit "...")) with 3; lia. }
    split; [intros; lia|]; split; [|lia].
    intros _; split; [exact Hlen|].
    rewrite firstn_app, length_firstn.
    replace (49 - Nat.min 49 (List.length line)) with 0 by lia.
    rewrite firstn_firstn; simpl; rewrite app_nil_r; reflexivity.
  - split; [reflexivity|]; split; [intros; lia | lia].
Qed.

(** ** Percent-encoding *)

Lemma jsstring_pair_ind (P : jsstring -> Prop) :
  P [] ->
  (forall c s, P s -> (forall d s', s = d :: s' -> P s') -> P (c :: s)) ->
  forall s, P s.
Proof.
  intros Hnil Hcons s.
  assert (H : P s /\ forall d s', s = d :: s' -> P s').
  { induction s as [|c s [IH1 IH2]].
    - split; [exact Hnil | discriminate].
    - split; [apply Hcons; assumption|].
      intros d s' Hs; injection Hs as _ <-; exact IH1. }
  exact (proj1 H).
Qed.

Lemma surrogate_not_unreserved (c : N) :
  isHighSurrogate c = true \/ isLowSurrogate c = true -> isUnreserved c = false.
Proof.
  unfold isHighSurrogate, isLowSurrogate, isUnreserved.
  intros H.
  assert (55296 <= c)%N.
  { destruct H as [H|H]; apply andb_true_iff in H; destruct H as [H _];
      apply N.leb_le in H; lia. }
  replace (c <=? 90)%N with false by (symmetry; apply N.leb_gt; lia).
  replace (c <=? 122)%N with false by (symmetry; apply N.leb_gt; lia).
  replace (c <=? 57)%N with false by (symmetry; apply N.leb_gt; lia).
  repeat match goal with
         | |- context [(c =? ?k)%N] =>
             replace (c =? k)%N with false by (symmetry; apply N.eqb_neq; lia)
         end.
  rewrite !andb_false_r; reflexivity.
Qed.

Lemma high_not_low (c : N) : isHighSurrogate c = true -> isLowSurrogate c = false.
Proof.
  unfold isHighSurrogate, isLowSurrogate.
  rewrite andb_true_iff, !N.leb_le; intros [_ H].
  destruct (N.leb_spec 56320 c); [lia | reflexivity].
Qed.

(** An unpaired high surrogate makes the encoding fail, wherever it
    stands. *)
Lemma encodeURIComponent_unpaired (before : jsstring) (h d : N) (rest : jsstring) :
  isHighSurrogate h = true ->
  isLowSurrogate d = false ->
  encodeURIComponent (before ++ h :: d :: rest) = None.
Proof.
  intros Hh Hd; induction before as [|c s IH1 IH2] using jsstring_pair_ind.
  - simpl. rewrite (surrogate_not_unreserved h (or_introl Hh)), Hh, Hd.
    reflexivity.
  - change ((c :: s) ++ h :: d :: rest) with (c :: (s ++ h :: d :: rest)).
    simpl encodeURIComponent.
    destruct (isUnreserved c); [rewrite IH1; reflexivity|].
    destruct (isHighSurrogate c).
    + destruct s as [|d0 s']; simpl.
      * rewrite (high_not_low h Hh); reflexivity.
      * destruct (isLowSurrogate d0); [|reflexivity].
        rewrite (IH2 d0 s' eq_refl); reflexivity.
    + destruct (isLowSurrogate c); [reflexivity|].
      rewrite IH1; reflexivity.
Qed.

Lemma firstn_snoc (A : Type) (l : list A) (n : nat) (x : A) :
  nth_error l n = Some x -> firstn (S n) l = firstn n l ++ [x].
Proof.
  revert n; induction l as [|y l IH]; intros [|n] H; try discriminate H.
  - injection H as <-; reflexivity.
  - simpl in H; change (firstn (S (S n)) (y :: l)) with (y :: firstn (S n) l).
    rewrite (IH _ H); reflexivity.
Qed.

Lemma mapiM_raises (A B : Type) (f : nat -> A -> option B) (l : list A)
    (index k : nat) (x : A) :
  nth_error l k = Some x ->
  f (index + k) x = None ->
  mapiM f index l = None.
Proof.
  intros Hk Hf.
  destruct (mapiM f index l) as [ys|] eqn:Hm; [|reflexivity].
  destruct (mapiM_nth _ _ _ _ Hm Hk) as (y & _ & Hy); congruence.
Qed.

(** X13.  The cut does not respect surrogate pairs.  When one of the first
    ten homeworks has a line of more than 50 code units whose 49th code unit
    is a high surrogate (the first half of a character outside the Basic
    Multilingual Plane), the cut leaves that half alone before the dots,
    [encodeURIComponent] raises URIError, and the encoder returns nothing. *)
Theorem cut_surrogate_pair_raises (E : Engine) (U : Util)
    (homeworks : list Homework.t) (generatedAt : Z)
    (linePrefix updatedParam : jsstring) (k : nat) (homework : Homework.t) (h : N) :
  nth_error (firstn 10 homeworks) k = Some homework ->
  50 < List.length (homeworkLine E U generatedAt homework) ->
  nth_error (homeworkLine E U generatedAt homework) 48 = Some h ->
  isHighSurrogate h = true ->
  buildHomeworksQueryString E U (ArgArray homeworks) generatedAt
    linePrefix updatedParam = None.
Proof.
  intros Hk Hlen Hn Hh.
  assert (Henc : encodeURIComponent
                   (truncateLine (homeworkLine E U generatedAt homework)) = None).
  { unfold truncateLine, substring0.
    destruct (Nat.ltb_spec 50 (List.length (homeworkLine E U generatedAt homework)));
      [|lia].
    rewrite (firstn_snoc _ _ Hn), <- app_assoc.
    apply encodeURIComponent_unpaired; [exact Hh | reflexivity]. }
  unfold buildHomeworksQueryString.
  destruct homeworks as [|h0 hs]; [destruct k; discriminate Hk|].
  rewrite (mapiM_raises _ _ 0 _ Hk); [reflexivity|].
  simpl; rewrite Henc; reflexivity.
Qed.

Lemma cut_surrogate_pair_raises_witness :
  buildHomeworksQueryString Ref.engine Ref.util
    (ArgArray [Ref.fiftyHomework; Ref.emojiHomework]) Ref.day
    (lit "homeworks_line") (lit "homeworks_updated") = None
  /\ encodeURIComponent (homeworkLine Ref.engine Ref.util Ref.day Ref.emojiHomework)
     <> None.
Proof.
  split; [|vm_compute; discriminate].
  apply (@cut_surrogate_pair_raises Ref.engine Ref.util
           [Ref.fiftyHomework; Ref.emojiHomework] Ref.day
           (lit "homeworks_line") (lit "homeworks_updated")
           1 Ref.emojiHomework 55357%N eq_refl);
    [vm_compute; lia | reflexivity | reflexivity].
Defined.

Lemma hexDigit_unreserved (d : N) :
  (d < 16)%N -> isUnreserved (hexDigit d) = true.
Proof.
  intros Hd.
  assert (Hall : forallb (fun n => isUnreserved (hexDigit (N.of_nat n))) (seq 0 16)
                 = true) by reflexivity.
  rewrite forallb_forall in Hall.
  rewrite <- (N2Nat.id d); apply Hall, in_seq; lia.
Qed.

Lemma percent_urlSafe (octets : list N) :
  Forall (fun o => (o < 256)%N) octets -> urlSafe (percent octets).
Proof.
  unfold urlSafe, percent; induction 1 as [|o l Ho _ IH]; simpl; [constructor|].
  constructor; [right; reflexivity|].
  constructor; [left; apply hexDigit_unreserved, N.Div0.div_lt_upper_bound; lia|].
  constructor; [left; apply hexDigit_unreserved, N.mod_lt; lia|].
  exact IH.
Qed.

Lemma utf8_octets (cp : N) :
  (cp < 1114112)%N -> Forall (fun o => (o < 256)%N) (utf8 cp).
Proof.
  intros Hcp; unfold utf8.
  repeat match goal with
         | |- context [(?a <? ?b)%N] => destruct (N.ltb_spec a b)
         end;
    repeat constructor;
    try (apply N.lt_le_trans with (128 + 64)%N;
         [apply N.add_lt_mono_l, N.mod_lt; lia | lia]);
    try lia.
  - assert (cp / 64 < 32)%N by (apply N.Div0.div_lt_upper_bound; lia); lia.
  - assert (cp / 4096 < 16)%N by (apply N.Div0.div_lt_upper_bound; lia); lia.
  - assert (cp / 262144 < 5)%N by (apply N.Div0.div_lt_upper_bound; lia); lia.
Qed.

Lemma urlSafe_app (a b : jsstring) : urlSafe a -> urlSafe b -> urlSafe (a ++ b).
Proof. unfold urlSafe; intros; apply Forall_app; split; assumption. Qed.

Lemma encodeURIComponent_urlSafe (s : jsstring) :
  forall encoded,
    codeUnits s = true ->
    encodeURIComponent s = Some encoded ->
    urlSafe encoded.
Proof.
  induction s as [|c s IH1 IH2] using jsstring_pair_ind; intros encoded Hs He.
  - injection He as <-; constructor.
  - simpl in Hs; apply andb_true_iff in Hs; destruct Hs as [Hc Hs].
    apply N.ltb_lt in Hc.
    simpl in He.
    destruct (isUnreserved c) eqn:Hu.
    { destruct (encodeURIComponent s) as [e|] eqn:Hr; [|discriminate].
      injection He as <-; constructor; [left; exact Hu|].
      apply IH1; [exact Hs | reflexivity]. }
    destruct (isHighSurrogate c) eqn:Hh.
    { destruct s as [|d s']; [discriminate|].
      destruct (isLowSurrogate d) eqn:Hd; [|discriminate].
      simpl in Hs; apply andb_true_iff in Hs; destruct Hs as [_ Hs].
      destruct (encodeURIComponent s') as [e|] eqn:Hr; [|discriminate].
      injection He as <-.
      apply urlSafe_app; [|apply (IH2 d s' eq_refl); [exact Hs | exact Hr]].
      apply percent_urlSafe, utf8_octets.
      unfold isHighSurrogate, isLowSurrogate in Hh, Hd.
      apply andb_true_iff in Hh, Hd.
      destruct Hh as [Hh1 Hh2], Hd as [Hd1 Hd2].
      apply N.leb_le in Hh1, Hh2, Hd1, Hd2; lia. }
    destruct (isLowSurrogate c); [discriminate|].
    destruct (encodeURIComponent s) as [e|] eqn:Hr; [|discriminate].
    injection He as <-.
    apply urlSafe_app; [|apply IH1; [exact Hs | reflexivity]].
    apply percent_urlSafe, utf8_octets; lia.
Qed.


Lemma forallb_firstn (A : Type) (p : A -> bool) (n : nat) (l : list A) :
  forallb p l = true -> forallb p (firstn n l) = true.
Proof.
  revert n; induction l as [|x l IH]; intros [|n]; simpl; try reflexivity.
  rewrite !andb_true_iff; intros [Hx Hl]; split; [exact Hx | apply IH; exact Hl].
Qed.

Lemma truncateLine_forallb (p : N -> bool) (line : jsstring) :
  p 46%N = true ->
  forallb p line = true -> forallb p (truncateLine line) = true.
Proof.
  intros Hdot Hl; unfold truncateLine, substring0.
  destruct (50 <? List.length line); [|exact Hl].
  rewrite forallb_app, (forallb_firstn _ _ _ Hl).
  change (lit "...") with [46; 46; 46]%N; simpl; rewrite Hdot; reflexivity.
Qed.

(** ** The shape of the encoded lists *)

Lemma mapiM_numbered (A : Type) (g : A -> option jsstring) (linePrefix : jsstring)
    (l : list A) :
  forall index lines,
    mapiM (fun index x =>
             encoded <- g x ;;
             Some (linePrefix ++ lit "_" ++ decimal (index + 1)
                   ++ lit "=" ++ encoded)) index l = Some lines ->
    exists values,
      Forall2 (fun x v => g x = Some v) l values
      /\ lines = numbered linePrefix (index + 1) values.
Proof.
  induction l as [|x l IH]; simpl; intros index lines H.
  - injection H as <-; exists []; split; [constructor | reflexivity].
  - destruct (g x) as [v|] eqn:Hg; [|discriminate].
    match type of H with
    | match ?m with _ => _ end = _ => destruct m as [ys|] eqn:Hm; [|discriminate]
    end.
    injection H as <-.
    destruct (IH _ _ Hm) as (values & Hv & ->).
    exists (v :: values); split; [constructor; assumption|].
    unfold numbered; simpl.
    replace (S index + 1) with (S (index + 1)) by lia; reflexivity.
Qed.

Lemma mapiM_ext (A B : Type) (f f' : nat -> A -> option B) (l : list A) :
  (forall index x, f index x = f' index x) ->
  forall index, mapiM f index l = mapiM f' index l.
Proof.
  intros Hf; induction l as [|x l IH]; intros index; simpl; [reflexivity|].
  rewrite Hf, IH; reflexivity.
Qed.


Lemma Forall2_length_eq (A B : Type) (R : A -> B -> Prop) (l : list A) (l' : list B) :
  Forall2 R l l' -> List.length l' = List.length l.
Proof. induction 1; simpl; congruence. Qed.

(** X14.  The encoded homework list: for a non-empty array the result is
    the lines [linePrefix_1=...], [linePrefix_2=...] and so on for the first
    ten homeworks at most, in their order, each value the percent-encoding
    of the cut line, followed by the metadata line, all joined by
    ampersands.  When the rendered lines and the formatted date are
    sequences of code units, every value consists of unreserved characters
    and percent signs only, so that no value holds an ampersand or an equals
    sign. *)
Theorem buildHomeworksQueryString_shape (E : Engine) (U : Util)
    (homeworks : list Homework.t) (generatedAt : Z)
    (linePrefix updatedParam result : jsstring) :
  homeworks <> [] ->
  buildHomeworksQueryString E U (ArgArray homeworks) generatedAt
    linePrefix updatedParam = Some result ->
  exists values updated,
    result = join (lit "&")
               (numbered linePrefix 1 values ++ [updatedParam ++ lit "=" ++ updated])
    /\ List.length values = Nat.min 10 (List.length homeworks)
    /\ Forall2 (fun homework v =>
                  encodeURIComponent
                    (truncateLine (homeworkLine E U generatedAt homework)) = Some v)
         (firstn 10 homeworks) values
    /\ encodeURIComponent (formatDate U (Some generatedAt)) = Some updated
    /\ ((forall homework, In homework (firstn 10 homeworks) ->
                          codeUnits (homeworkLine E U generatedAt homework) = true) ->
        codeUnits (formatDate U (Some generatedAt)) = true ->
        Forall urlSafe (updated :: values)).
Proof.
  intros Hne Hb.
  destruct (@buildHomeworksQueryString_lines E U homeworks generatedAt
              linePrefix updatedParam result Hne Hb)
    as (lines & updated & Hl & Hu & ->).
  destruct (mapiM_numbered
              (fun homework =>
                 encodeURIComponent
                   (truncateLine (homeworkLine E U generatedAt homework)))
              linePrefix _ _ Hl) as (values & Hv & ->).
  exists values, updated.
  split; [reflexivity|].
  split; [rewrite (Forall2_length_eq Hv), length_firstn; reflexivity|].
  split; [exact Hv|]; split; [exact Hu|].
  intros Hlines Hdate; constructor.
  - exact (@encodeURIComponent_urlSafe _ _ Hdate Hu).
  - clear Hl Hb; induction Hv as [|hw v hs vs Hhw _ IH]; constructor.
    + refine (@encodeURIComponent_urlSafe
                (truncateLine (homeworkLine E U generatedAt hw)) _ _ Hhw).
      apply truncateLine_forallb; [reflexivity|].
      apply Hlines; left; reflexivity.
    + apply IH; intros hw' Hin; apply Hlines; right; exact Hin.
Qed.

Lemma buildHomeworksQueryString_shape_witness :
  exists values updated,
    Ref.returned
      (buildHomeworksQueryString Ref.engine Ref.util
         (ArgArray Ref.twoHomeworks) Ref.day
         (lit "homeworks_line") (lit "homeworks_updated"))
    = join (lit "&")
        (numbered (lit "homeworks_line") 1 values
         ++ [lit "homeworks_updated=" ++ updated])
    /\ List.length values = 2
    /\ Forall urlSafe (updated :: values).
Proof.
  destruct (@buildHomeworksQueryString_shape Ref.engine Ref.util
              Ref.twoHomeworks Ref.day
              (lit "homeworks_line") (lit "homeworks_updated") _
              ltac:(discriminate) eq_refl)
    as (values & updated & Hr & Hlen & _ & _ & Hsafe).
  exists values, updated; split; [exact Hr|]; split; [exact Hlen|].
  apply Hsafe; [|reflexivity].
  intros homework [<-|[<-|[]]]; reflexivity.
Defined.

(** X15.  The encoded mark list: for a non-empty array the result is one
    line [linePrefix_k=...] for every mark, numbered from 1 in the order of
    the array, each value the percent-encoding of "subject: value (date)"
    with the subject name trimmed, followed by the metadata line, all
    joined by ampersands. *)
Theorem buildMarksQueryString_shape (E : Engine) (U : Util) (today : Z)
    (marks : list Mark.t) (linePrefix updatedParam result : jsstring) :
  marks <> [] ->
  buildMarksQueryString E U today (ArgArray marks) linePrefix updatedParam
  = Some result ->
  exists values updated,
    result = join (lit "&")
               (numbered linePrefix 1 values ++ [updatedParam ++ lit "=" ++ updated])
    /\ List.length values = List.length marks
    /\ Forall2 (fun mark v =>
                  exists line, markLine E mark = Some line
                               /\ encodeURIComponent line = Some v)
         marks values.
Proof.
  intros Hne; unfold buildMarksQueryString.
  destruct marks as [|mark0 marks]; [congruence|].
  rewrite (mapiM_ext _
             (fun index mark =>
                encoded <- (line <- markLine E mark ;; encodeURIComponent line) ;;
                Some (linePrefix ++ lit "_" ++ decimal (index + 1)
                      ++ lit "=" ++ encoded))).
  2:{ intros index mark; unfold markLine.
      destruct (callTrim (Mark.subjectName mark)); reflexivity. }
  match goal with
  | |- context [mapiM ?f 0 ?l] => destruct (mapiM f 0 l) as [lines|] eqn:Hl
  end; [|discriminate].
  destruct (encodeURIComponent (formatDate U (Some (Mark.editDate mark0))))
    as [updated|]; [|discriminate].
  intros H; injection H as <-.
  destruct (mapiM_numbered _ linePrefix _ _ Hl) as (values & Hv & ->).
  exists values, updated; split; [reflexivity|].
  split; [apply (Forall2_length_eq Hv)|].
  eapply Forall2_impl; [|exact Hv].
  intros mark v Hm; cbv beta in Hm.
  destruct (markLine E mark) as [line|]; [|discriminate].
  exists line; split; [reflexivity | exact Hm].
Qed.

Lemma buildMarksQueryString_shape_witness :
  exists values updated,
    Ref.returned
      (buildMarksQueryString Ref.engine Ref.util Ref.day
         (ArgArray (Ref.returned (fetchSubjectMarks Ref.engine 0 0 Ref.marksPayload)))
         (lit "grades_line") (lit "grades_updated"))
    = join (lit "&")
        (numbered (lit "grades_line") 1 values ++ [lit "grades_updated=" ++ updated])
    /\ List.length values = 10.
Proof.
  destruct (@buildMarksQueryString_shape Ref.engine Ref.util Ref.day
              (Ref.returned (fetchSubjectMarks Ref.engine 0 0 Ref.marksPayload))
              (lit "grades_line") (lit "grades_updated") _
              ltac:(discriminate) eq_refl)
    as (values & updated & Hr & Hlen & _).
  exists values, updated; split; [exact Hr | exact Hlen].
Defined.

(** X16.  The mark encoder calls [trim] on the subject name, which the
    normaliser takes from the payload as it is.  When the subject name of
    one mark is not a string the encoder raises; so does the marks pipeline
    on a payload in which a subject group with a valid mark is named by a
    number or another value that is not a string. *)
Theorem non_string_subject_raises (E : Engine) (U : Util) (today : Z)
    (linePrefix updatedParam : jsstring) (marks : list Mark.t) (mark : Mark.t) :
  In mark marks ->
  (forall s, Mark.subjectName mark <> VString s) ->
  buildMarksQueryString E U today (ArgArray marks) linePrefix updatedParam = None
  /\ (forall now fromDate data,
        fetchSubjectMarks E fromDate now data = Some marks ->
        marksSync E U now fromDate today data linePrefix updatedParam = None).
Proof.
  intros Hin Hs.
  assert (Hb : buildMarksQueryString E U today (ArgArray marks)
                 linePrefix updatedParam = None).
  { unfold buildMarksQueryString.
    destruct marks as [|mark0 marks]; [destruct Hin|].
    apply In_nth_error in Hin; destruct Hin as (k & Hk).
    rewrite (mapiM_raises _ _ 0 _ Hk); [reflexivity|].
    destruct (Mark.subjectName mark) eqn:Hn; try reflexivity.
    exfalso; exact (Hs _ eq_refl). }
  split; [exact Hb|].
  intros now fromDate data Hf; unfold marksSync; rewrite Hf; exact Hb.
Qed.

Lemma non_string_subject_raises_witness :
  (exists mark,
      fetchSubjectMarks Ref.engine 0 0 Ref.numericSubjectPayload = Some [mark]
      /\ Mark.subjectName mark = VNumber 5%Q)
  /\ marksSync Ref.engine Ref.util 0 0 Ref.day Ref.numericSubjectPayload
       (lit "grades_line") (lit "grades_updated") = None.
Proof.
  split; [eexists; split; reflexivity|].
  destruct (@non_string_subject_raises Ref.engine Ref.util Ref.day
              (lit "grades_line") (lit "grades_updated")
              (Ref.returned (fetchSubjectMarks Ref.engine 0 0 Ref.numericSubjectPayload))
              (hd (Mark.make VNull VNull 0 VNull VNull)
                 (Ref.returned
                    (fetchSubjectMarks Ref.engine 0 0 Ref.numericSubjectPayload)))
              (or_introl eq_refl))
    as [_ H]; [intros s; discriminate|].
  apply (H 0%Z 0%Z Ref.numericSubjectPayload); reflexivity.
Defined.

(** ** The content of a homework line *)

Lemma collapseFrom_singleSpaced (s : jsstring) :
  forall inRun,
    singleSpaced (collapseFrom inRun s)
    /\ (inRun = true ->
        match collapseFrom inRun s with
        | d :: _ => isWhiteSpace d = false
        | [] => True
        end).
Proof.
  induction s as [|c s IH]; intros inRun; simpl; [tauto|].
  destruct (isWhiteSpace c) eqn:Hc.
  - destruct inRun.
    + apply IH.
    + split; [|discriminate].
      simpl; split; [|apply IH].
      intros _; split; [reflexivity|].
      apply (proj2 (IH true) eq_refl).
  - split; [|intros _; exact Hc].
    simpl; split; [|apply IH].
    intros H; congruence.
Qed.

Lemma collapseWhiteSpace_nonempty (s : jsstring) :
  s <> [] -> collapseWhiteSpace s <> [].
Proof.
  destruct s as [|c s]; [congruence|]; intros _.
  unfold collapseWhiteSpace; simpl.
  destruct (isWhiteSpace c); discriminate.
Qed.

(** X17.  The line of a homework is "[indicator] subject: content – date".
    Its content part is never empty: an empty content is shown as
    'Bez popisu'.  Every run of white space in the content, line breaks and
    tabs included, is shown as one space. *)
Theorem homeworkLine_content (E : Engine) (U : Util) (generatedAt : Z)
    (homework : Homework.t) :
  exists content,
    homeworkLine E U generatedAt homework
    = lit "[" ++ describeRelativeDay U generatedAt (Homework.dueDate homework)
      ++ lit "] " ++ ToString E (Homework.subjectName homework) ++ lit ": "
      ++ content ++ lit " – " ++ formatDate U (Homework.dueDate homework)
    /\ content <> []
    /\ singleSpaced content
    /\ (Homework.content homework = [] -> content = lit "Bez popisu")
    /\ (Homework.content homework <> [] ->
        content = collapseWhiteSpace (Homework.content homework)).
Proof.
  unfold homeworkLine.
  eexists; split; [reflexivity|].
  split; [|split; [apply (collapseFrom_singleSpaced _ false)|]].
  - apply collapseWhiteSpace_nonempty.
    destruct (Homework.content homework); [vm_compute|]; discriminate.
  - split.
    + intros ->; vm_compute; reflexivity.
    + intros Hc; destruct (Homework.content homework); [congruence|reflexivity].
Qed.

(** ** When the encoders return *)



(** ** Containers that are not arrays *)

Lemma forEachM_pushSubject_raises (E : Engine) (subjects : list value)
    (subject : value) :
  In subject subjects ->
  hasMarksArray subject = false ->
  forall acc, forEachM (pushSubject E) subjects acc = None.
Proof.
  intros Hin Hs; induction subjects as [|s ss IH]; intros acc; [destruct Hin|].
  simpl; unfold pushSubject at 1.
  destruct Hin as [->|Hin].
  - unfold hasMarksArray, marksOf in Hs.
    destruct (asArray _); [discriminate Hs | reflexivity].
  - destruct (asArray _); [apply IH; exact Hin | reflexivity].
Qed.

(** X19.  Only a missing container is read as the empty list.  A container
    that is present under its capitalised key, or under the lower-case key
    when the capitalised one is missing, but is not an array (an object, a
    string, a number) makes the pipeline raise, for marks, homework and
    events alike; so does a subject group whose mark list is present but is
    not an array. *)
Theorem non_array_container_raises (E : Engine) (data : value)
    (fromDate toDate : Z) :
  (forall container,
      data?."Subjects" ?? data?."subjects" = container ->
      nullish container = false -> isArray container = false ->
      fetchSubjectMarks E fromDate toDate data = None)
  /\ (forall container,
        data?."Homeworks" ?? data?."homeworks" = container ->
        nullish container = false -> isArray container = false ->
        fetchHomeworks E fromDate toDate data = None)
  /\ (forall container,
        data?."Events" ?? data?."events" = container ->
        nullish container = false -> isArray container = false ->
        fetchEvents E fromDate toDate data = None)
  /\ (forall subjects subject,
        asArray (data?."Subjects" ?? data?."subjects" ?? VArray []) = Some subjects ->
        In subject subjects ->
        hasMarksArray subject = false ->
        fetchSubjectMarks E fromDate toDate data = None).
Proof.
  assert (Hchain : forall a b container,
             a ?? b = container -> nullish container = false ->
             isArray container = false ->
             asArray (a ?? b ?? VArray []) = None).
  { intros a b container <- Hn Ha.
    unfold coalesce in *.
    destruct (nullish a) eqn:Hna.
    - rewrite Hn; destruct b; try reflexivity; discriminate.
    - destruct a; try reflexivity; discriminate. }
  split; [|split; [|split]].
  - intros container Hc Hn Ha; unfold fetchSubjectMarks, collectMarks.
    rewrite (Hchain _ _ _ Hc Hn Ha); reflexivity.
  - intros container Hc Hn Ha; unfold fetchHomeworks.
    rewrite (Hchain _ _ _ Hc Hn Ha); reflexivity.
  - intros container Hc Hn Ha; unfold fetchEvents.
    rewrite (Hchain _ _ _ Hc Hn Ha); reflexivity.
  - intros subjects subject Hs Hin Hm; unfold fetchSubjectMarks, collectMarks.
    rewrite Hs, (forEachM_pushSubject_raises E _ _ Hin Hm); reflexivity.
Qed.

Lemma non_array_container_raises_witness :
  fetchHomeworks Ref.engine 0 0
    (Ref.obj [("Homeworks", Ref.obj []);
              ("homeworks", VArray [Ref.obj [("DueDate", Ref.str "1970-01-01")]])]%string)
  = None
  /\ fetchSubjectMarks Ref.engine 0 0
       (Ref.obj [("Subjects",
                  VArray [Ref.obj [("Marks", Ref.str "none")]])]%string)
     = None.
Proof.
  split.
  - destruct (non_array_container_raises Ref.engine
                (Ref.obj [("Homeworks", Ref.obj []);
                          ("homeworks",
                           VArray [Ref.obj [("DueDate", Ref.str "1970-01-01")]])]%string)
                0 0) as (_ & H & _).
    apply (H (Ref.obj [])); reflexivity.
  - destruct (non_array_container_raises Ref.engine
                (Ref.obj [("Subjects",
                           VArray [Ref.obj [("Marks", Ref.str "none")]])]%string)
                0 0) as (_ & _ & _ & H).
    apply (H [Ref.obj [("Marks", Ref.str "none")]%string]
             (Ref.obj [("Marks", Ref.str "none")]%string));
      [reflexivity | left; reflexivity | reflexivity].
Defined.

(** ** Runs on concrete input *)

Lemma extractSubjectName_present_witness :
  extractSubjectName
    (Ref.obj [("Subject", Ref.obj [("Name", VString [])]); ("Name", Ref.str "Fyzika")]%string)
  = VString []
  /\ extractSubjectName (Ref.obj [("Title", Ref.str "Fyzika")]%string)
     = VString (lit "Neznámý předmět").
Proof.
  split.
  - apply (proj1 (proj2 (extractSubjectName_present
                           (Ref.obj [("Subject", Ref.obj [("Name", VString [])]);
                                     ("Name", Ref.str "Fyzika")]%string)))
             [VUndefined] (VString []) [Ref.str "Fyzika"; VUndefined]);
      [reflexivity | repeat constructor | reflexivity].
  - apply (proj2 (proj2 (extractSubjectName_present
                           (Ref.obj [("Title", Ref.str "Fyzika")]%string)))).
    repeat constructor.
Defined.

Lemma isMarkWithinRange_instants_witness :
  isMarkWithinRange Ref.engine
    (Ref.obj [("EditDate", Ref.str "2024-03-10")]%string)
    (Ref.instant "2024-03-01") (Ref.instant "2024-03-31") = false
  /\ exists markDate,
       Date_new Ref.engine (Ref.str "2024-03-10T12:00:00Z") = Some markDate
       /\ inRange markDate (Ref.instant "2024-03-10T08:00:00Z")
            (Ref.instant "2024-03-10T16:00:00Z").
Proof.
  split.
  - apply (proj2 (proj2 (isMarkWithinRange_instants Ref.engine
                           (Ref.obj [("EditDate", Ref.str "2024-03-10")]%string)
                           (Ref.instant "2024-03-01") (Ref.instant "2024-03-31")))).
    repeat constructor.
  - apply (proj1 (proj2 (isMarkWithinRange_instants Ref.engine
                           (Ref.obj [("Date", Ref.str "2024-03-10T12:00:00Z")]%string)
                           (Ref.instant "2024-03-10T08:00:00Z")
                           (Ref.instant "2024-03-10T16:00:00Z")))).
    reflexivity.
Defined.

Lemma resolveWithDefault_result_witness :
  resolveWithDefault
    (Ref.obj [("grades-line-prefix", Ref.str "  ")]%string)
    [Ref.str "url"; Ref.str "user"; Ref.str "pw"; Ref.str "key"; Ref.str "radek"]
    "grades-line-prefix" 4 (lit "grades_line")
  = lit "grades_line"
  /\ resolveWithDefault (Ref.obj [])
       [Ref.str "url"; Ref.str "user"; Ref.str "pw"; Ref.str "key"; Ref.str " radek "]
       "grades-line-prefix" 4 (lit "grades_line")
     = lit "radek".
Proof.
  split.
  - apply (proj1 (proj2 (resolveWithDefault_result
                           (Ref.obj [("grades-line-prefix", Ref.str "  ")]%string)
                           [Ref.str "url"; Ref.str "user"; Ref.str "pw";
                            Ref.str "key"; Ref.str "radek"]
                           "grades-line-prefix" 4 (lit "grades_line")))).
    reflexivity.
  - apply (proj1 (proj2 (proj2 (resolveWithDefault_result (Ref.obj [])
                                  [Ref.str "url"; Ref.str "user"; Ref.str "pw";
                                   Ref.str "key"; Ref.str " radek "]
                                  "grades-line-prefix" 4 (lit "grades_line"))))).
    reflexivity.
Defined.

Lemma truncateLine_length_witness :
  List.length
    (truncateLine (homeworkLine Ref.engine Ref.util Ref.day Ref.longHomework)) = 52
  /\ truncateLine (homeworkLine Ref.engine Ref.util Ref.day Ref.fiftyHomework)
     = homeworkLine Ref.engine Ref.util Ref.day Ref.fiftyHomework.
Proof.
  split.
  - apply (proj1 (proj2 (truncateLine_length
                           (homeworkLine Ref.engine Ref.util Ref.day Ref.longHomework)))).
    vm_compute; lia.
  - apply (proj1 (truncateLine_length
                    (homeworkLine Ref.engine Ref.util Ref.day Ref.fiftyHomework))).
    vm_compute; lia.
Defined.
